(** * Component reconciliation engine of the panel estimator

    A shallow embedding of the matching module ([component_matcher.py]),
    of the candidate retrieval it relies on ([database.py],
    [get_all_components]) and of the stock-code parsing done while importing
    ERP stock items ([database.py], [import_stock_items_from_erp]), together
    with the properties of the specification settled against them.

    Python strings are modelled by [string]: a sequence of characters with
    code points below 256.  Integers are [Z]. *)

From Stdlib Require Import ZArith NArith List String Ascii Bool Lia.
From Stdlib Require Import Sorted Permutation.
Import ListNotations.

Local Open Scope list_scope.
Local Open Scope string_scope.

(* ================================================================== *)
(** * Python built-ins used by the source *)
(* ================================================================== *)

Module Py.

(** [str.isspace] on one character. Below 256 the white space characters
    are TAB..CR, FS..US, SPACE, NEL and NBSP. *)
Definition isspace (c : ascii) : bool :=
  let n := N_of_ascii c in
  (((9 <=? n) && (n <=? 13)) || ((28 <=? n) && (n <=? 32))
   || (n =? 133) || (n =? 160))%N.

(** [str.isdigit] as used by [\d]: below 256 the decimal digits are 0..9. *)
Definition isdigit (c : ascii) : bool :=
  let n := N_of_ascii c in ((48 <=? n) && (n <=? 57))%N.

Fixpoint lstrip (s : string) : string :=
  match s with
  | EmptyString => EmptyString
  | String c s' => if isspace c then lstrip s' else s
  end.

Fixpoint rstrip (s : string) : string :=
  match s with
  | EmptyString => EmptyString
  | String c s' =>
      match rstrip s' with
      | EmptyString => if isspace c then EmptyString else String c EmptyString
      | r => String c r
      end
  end.

(** [s.strip()] *)
Definition strip (s : string) : string := lstrip (rstrip s).

(** [s.split(sep)] for a one-character separator: never the empty list,
    empty pieces are kept. *)
Fixpoint split (sep : ascii) (s : string) : list string :=
  match s with
  | EmptyString => [EmptyString]
  | String c s' =>
      if Ascii.eqb c sep then EmptyString :: split sep s'
      else match split sep s' with
           | [] => [String c EmptyString]
           | p :: ps => String c p :: ps
           end
  end.

(** [sep.join(l)] *)
Fixpoint join (sep : string) (l : list string) : string :=
  match l with
  | [] => EmptyString
  | [x] => x
  | x :: l' => x ++ sep ++ join sep l'
  end.

(** [c.upper()] for one character: a..z and the accented Latin-1 letters
    move down by 32, the sharp s becomes SS.  The upper-case forms of the
    micro sign (181) and of y-diaeresis (255) lie above 255; they are left
    in place, which no comparison with an ASCII word can observe. *)
Definition upper_char (c : ascii) : string :=
  let n := N_of_ascii c in
  if ((97 <=? n) && (n <=? 122))%N then String (ascii_of_N (n - 32)) EmptyString
  else if (n =? 223)%N then "SS"
  else if ((224 <=? n) && (n <=? 254) && negb (n =? 247))%N
       then String (ascii_of_N (n - 32)) EmptyString
  else String c EmptyString.

(** [s.upper()] *)
Fixpoint upper (s : string) : string :=
  match s with
  | EmptyString => EmptyString
  | String c s' => upper_char c ++ upper s'
  end.

(** [sub in s] on strings: [sub] occurs in [s] as a contiguous run. *)
Fixpoint contains (sub s : string) : bool :=
  String.prefix sub s ||
  match s with
  | EmptyString => false
  | String _ s' => contains sub s'
  end.

(** [f"{x}"] of a value that is a string or [None]. *)
Definition format (x : option string) : string :=
  match x with
  | Some s => s
  | None => "None"
  end.

(** Truth value of a string or [None] in a condition. *)
Definition truthy (x : option string) : bool :=
  match x with
  | Some (String _ _) => true
  | _ => false
  end.

End Py.

(* ================================================================== *)
(** * Regular expressions, as far as [re.match] is used *)
(* ================================================================== *)

Module Re.

Inductive regex : Type :=
| Empty : regex
| Eps : regex
| Sym (p : ascii -> bool) : regex
| Cat (r1 r2 : regex) : regex
| Alt (r1 r2 : regex) : regex
| Star (r : regex) : regex.

(** [r+] *)
Definition Plus (r : regex) : regex := Cat r (Star r).

(** [\d] *)
Definition digit : regex := Sym Py.isdigit.

(** [[...]]: a character class given by its members. *)
Definition class (members : string) : regex :=
  Sym (fun c => Py.contains (String c EmptyString) members).

Fixpoint nullable (r : regex) : bool :=
  match r with
  | Empty => false
  | Eps => true
  | Sym _ => false
  | Cat r1 r2 => nullable r1 && nullable r2
  | Alt r1 r2 => nullable r1 || nullable r2
  | Star _ => true
  end.

Fixpoint deriv (c : ascii) (r : regex) : regex :=
  match r with
  | Empty => Empty
  | Eps => Empty
  | Sym p => if p c then Eps else Empty
  | Cat r1 r2 =>
      if nullable r1 then Alt (Cat (deriv c r1) r2) (deriv c r2)
      else Cat (deriv c r1) r2
  | Alt r1 r2 => Alt (deriv c r1) (deriv c r2)
  | Star r1 => Cat (deriv c r1) (Star r1)
  end.

(** [re.match(r, s)] finds a match: [r] matches at the start of [s],
    whatever follows. *)
Fixpoint matches (r : regex) (s : string) : bool :=
  nullable r ||
  match s with
  | EmptyString => false
  | String c s' => matches (deriv c r) s'
  end.

(** The words of a regular expression. *)
Inductive lang : regex -> string -> Prop :=
| lang_eps : lang Eps EmptyString
| lang_sym p c : p c = true -> lang (Sym p) (String c EmptyString)
| lang_cat r1 r2 s1 s2 :
    lang r1 s1 -> lang r2 s2 -> lang (Cat r1 r2) (s1 ++ s2)
| lang_alt_l r1 r2 s : lang r1 s -> lang (Alt r1 r2) s
| lang_alt_r r1 r2 s : lang r2 s -> lang (Alt r1 r2) s
| lang_star_nil r : lang (Star r) EmptyString
| lang_star_cons r s1 s2 :
    lang r s1 -> lang (Star r) s2 -> lang (Star r) (s1 ++ s2).

End Re.

(* ================================================================== *)
(** * Stock-code parsing of [Database.import_stock_items_from_erp] *)
(* ================================================================== *)

(** The loop body of [import_stock_items_from_erp] derives the fields of a
    component from the stock code of one ERP row ("MCB-3P-63A-SCH",
    "CONTACTOR-40A-ABB", ...); that derivation is embedded here. *)
Module Stock.

Definition known_manufacturers : list string :=
  [ "SCH"; "SCHNEIDER"; "ABB"; "SIE"; "SIEMENS";
    "LEG"; "LEGRAND"; "HAG"; "HAGER"; "GE";
    "EATON"; "LS"; "MIT"; "MITSUBISHI" ].

(** The [if mfg == 'SCH': ... else: manufacturer = part] cascade. *)
Definition manufacturer_for (mfg part : string) : string :=
  if mfg =? "SCH" then "Schneider"
  else if mfg =? "SIE" then "Siemens"
  else if mfg =? "LEG" then "Legrand"
  else if mfg =? "HAG" then "Hager"
  else if mfg =? "MIT" then "Mitsubishi"
  else part.

(** [for mfg in known_manufacturers: if mfg in part.upper(): ...; break],
    started with the current value of [manufacturer]. *)
Fixpoint scan_known (mfgs : list string) (part manufacturer : string)
  : string :=
  match mfgs with
  | [] => manufacturer
  | mfg :: rest =>
      if Py.contains mfg (Py.upper part) then manufacturer_for mfg part
      else scan_known rest part manufacturer
  end.

(** [manufacturer = "Unknown"; for part in parts: ...]: the [break] leaves
    the inner loop only, every part is visited. *)
Definition extract_manufacturer (parts : list string) : string :=
  fold_left
    (fun manufacturer part => scan_known known_manufacturers part manufacturer)
    parts "Unknown".

(** [r'\d+[AV]'] and [r'\d+P'] *)
Definition re_amp_volt : Re.regex := Re.Cat (Re.Plus Re.digit) (Re.class "AV").
Definition re_pole : Re.regex := Re.Cat (Re.Plus Re.digit) (Re.class "P").

(** [ratings = []; for part in parts: if re.match(...): ratings.append(part)
    elif re.match(...): ratings.append(part)] *)
Definition collect_ratings (parts : list string) : list string :=
  fold_left
    (fun ratings part =>
       if Re.matches re_amp_volt part then (ratings ++ [part])%list
       else if Re.matches re_pole part then (ratings ++ [part])%list
       else ratings)
    parts [].

(** [' '.join(ratings) if ratings else ''] *)
Definition join_ratings (ratings : list string) : string :=
  match ratings with
  | [] => EmptyString
  | _ => Py.join " " ratings
  end.

(** [parts[0] if len(parts) > 0 else 'OTHER'] *)
Definition first_part (parts : list string) : string :=
  match parts with
  | p :: _ => p
  | [] => "OTHER"
  end.

Record fields : Type := {
  itemname : string;
  itclass : string;
  manufacturer : string;
  model_number : string;
  rating : string
}.

(** The fields derived from [stkcode] by one turn of the import loop. *)
Definition parse_stkcode (stkcode : string) : fields :=
  let parts := Py.split "-" stkcode in
  {| itemname := stkcode;
     itclass := first_part parts;
     manufacturer := extract_manufacturer parts;
     model_number := stkcode;
     rating := join_ratings (collect_ratings parts) |}.

End Stock.

(** ** The normalizer as the specification words it

    These definitions follow the text of the specification, not the code;
    they are what the code is compared with. *)
Module StockSpec.

(** "scan all delimited tokens (case-insensitively) against a fixed alias
    table": a token is known when, upper-cased, it is an entry of the
    table. *)
Definition known_token (tok : string) : bool :=
  existsb (String.eqb (Py.upper tok)) Stock.known_manufacturers.

(** "SCH -> Schneider, ...; unmapped known tokens pass through verbatim" *)
Definition canonical (tok : string) : string :=
  Stock.manufacturer_for (Py.upper tok) tok.

(** "First alias match wins; no match leaves manufacturer as Unknown." *)
Definition manufacturer (stkcode : string) : string :=
  match find known_token (Py.split "-" stkcode) with
  | Some tok => canonical tok
  | None => "Unknown"
  end.

(** "first hyphen-delimited segment; default to the catch-all class (OTHER)
    when the string has no delimiter" *)
Definition itclass (stkcode : string) : string :=
  if Py.contains "-" stkcode then Stock.first_part (Py.split "-" stkcode)
  else "OTHER".

(** A token of the shape "integer + letter", the letter taken from
    [letters]: one digit or more, then that one letter, then nothing. *)
Fixpoint integer_then (letters : string) (seen_digit : bool) (tok : string)
  : bool :=
  match tok with
  | EmptyString => false
  | String c EmptyString =>
      seen_digit && Py.contains (String c EmptyString) letters
  | String c rest => Py.isdigit c && integer_then letters true rest
  end.

(** "collect every token matching one of the patterns integer + A,
    integer + V, integer + P; join matches with a single space in encounter
    order; empty when none match" *)
Definition rating (stkcode : string) : string :=
  Py.join " " (filter (integer_then "AVP" false) (Py.split "-" stkcode)).

End StockSpec.

(* ================================================================== *)
(** * Outcomes of Python calls *)
(* ================================================================== *)

(** A call returns a value or raises an exception, named by its class. *)
Inductive outcome (A : Type) : Type :=
| Returned (a : A)
| Raised (exc : string).

Arguments Returned {A} a.
Arguments Raised {A} exc.

Definition bind {A B : Type} (m : outcome A) (k : A -> outcome B)
  : outcome B :=
  match m with
  | Returned a => k a
  | Raised e => Raised e
  end.

Notation "x <- m ;; k" := (bind m (fun x => k))
  (at level 61, m at next level, right associativity).

(* ================================================================== *)
(** * Configuration ([config.py]) *)
(* ================================================================== *)

Module EstimatorConfig.

Definition AUTO_MATCH_THRESHOLD : Z := 85.
Definition REVIEW_THRESHOLD : Z := 70.

End EstimatorConfig.

(* ================================================================== *)
(** * Candidate retrieval ([database.py]) *)
(* ================================================================== *)

Module Database.

(** A row of [estimation.component_library], with the columns the matcher
    reads.  A text column that is NULL reads as [None]. *)
Record component : Type := {
  component_id : Z;
  itemname : option string;
  itclass : option string;
  manufacturer : option string;
  model_number : option string;
  is_active : bool
}.

(** The connection object.  [cursor] tells whether [connect] has set
    [self.cursor]; [component_library] lists the rows of the table in the
    order [ORDER BY itemname] gives them. *)
Record t : Type := {
  cursor : bool;
  component_library : list component
}.

(** [WHERE itclass = %s]: a NULL class equals nothing. *)
Definition itclass_is (wanted : string) (row : component) : bool :=
  match itclass row with
  | Some c => String.eqb c wanted
  | None => false
  end.

(** [get_all_components(self, itclass)]: the active rows, of the class
    asked for when one is given.  Without a cursor [self.cursor.execute]
    raises. *)
Definition get_all_components (self : t) (itclass : option string)
  : outcome (list component) :=
  if cursor self then
    if Py.truthy itclass then
      Returned (filter (fun row => itclass_is (Py.format itclass) row
                                   && is_active row)
                       (component_library self))
    else
      Returned (filter is_active (component_library self))
  else Raised "AttributeError".

End Database.

(* ================================================================== *)
(** * Python dictionaries with string keys *)
(* ================================================================== *)

Module Dict.

(** Keys are kept in the order of their first insertion; assigning to a
    key that is present replaces its value in place. *)
Definition t (V : Type) : Type := list (string * V).

Fixpoint set {V : Type} (d : t V) (k : string) (v : V) : t V :=
  match d with
  | [] => [(k, v)]
  | (k', v') :: d' =>
      if String.eqb k' k then (k', v) :: d' else (k', v') :: set d' k v
  end.

(** [d.keys()] *)
Definition keys {V : Type} (d : t V) : list string := map fst d.

Fixpoint lookup {V : Type} (d : t V) (k : string) : option V :=
  match d with
  | [] => None
  | (k', v) :: d' => if String.eqb k' k then Some v else lookup d' k
  end.

(** [d[k]] *)
Definition item {V : Type} (d : t V) (k : string) : outcome V :=
  match lookup d k with
  | Some v => Returned v
  | None => Raised "KeyError"
  end.

(** [d.get(k, default)] *)
Definition get {V : Type} (d : t V) (k : string) (default : V) : V :=
  match lookup d k with
  | Some v => v
  | None => default
  end.

End Dict.

(* ================================================================== *)
(** * The calls into [fuzzywuzzy.process] *)
(* ================================================================== *)

(** [process.extractOne] and [process.extract] as the matcher calls them:
    on a sequence of choices, with the default processor and score cutoff
    0.  [scorer query choice] is the score the library gives a choice: the
    [scorer] argument ([fuzz.token_sort_ratio]) applied to the processed
    query and the processed choice.  The scorer belongs to the library and
    stays a parameter. *)
Module Process.

Section WithScorer.

Variable scorer : string -> string -> Z.

(** [extractWithoutOrder]: one pair per choice whose score reaches the
    cutoff, in the order of the choices. *)
Definition extractWithoutOrder (query : string) (choices : list string)
  : list (string * Z) :=
  flat_map
    (fun choice =>
       let score := scorer query choice in
       if (0 <=? score)%Z then [(choice, score)] else [])
    choices.

(** [max(..., key=lambda i: i[1])] over [best] followed by [l]: the first
    of the elements with the greatest score. *)
Fixpoint max_by_score (best : string * Z) (l : list (string * Z))
  : string * Z :=
  match l with
  | [] => best
  | x :: l' =>
      if (snd best <? snd x)%Z then max_by_score x l'
      else max_by_score best l'
  end.

(** [extractOne]: [None] when [max] has nothing to choose from. *)
Definition extractOne (query : string) (choices : list string)
  : option (string * Z) :=
  match extractWithoutOrder query choices with
  | [] => None
  | x :: l => Some (max_by_score x l)
  end.

(** Insertion of [x], which comes before all of [l] in the input, into
    [l] sorted by decreasing score: [x] goes behind the strictly greater
    scores only. *)
Fixpoint insert_desc (x : string * Z) (l : list (string * Z))
  : list (string * Z) :=
  match l with
  | [] => [x]
  | y :: l' =>
      if (snd x <? snd y)%Z then y :: insert_desc x l' else x :: y :: l'
  end.

(** The score of [a] is not below the score of [b]. *)
Definition before (a b : string * Z) : Prop := (snd a >= snd b)%Z.

(** [sorted(l, key=lambda i: i[1], reverse=True)]: stable. *)
Definition sorted_desc (l : list (string * Z)) : list (string * Z) :=
  fold_right insert_desc [] l.

(** [heapq.nlargest(n, l, key=lambda i: i[1])]: the [n] first elements of
    [l] sorted by decreasing score, none when [n] is not positive. *)
Definition nlargest (n : Z) (l : list (string * Z)) : list (string * Z) :=
  firstn (Z.to_nat n) (sorted_desc l).

(** [extract] with a limit. *)
Definition extract (query : string) (choices : list string) (limit : Z)
  : list (string * Z) :=
  nlargest limit (extractWithoutOrder query choices).

End WithScorer.

End Process.

(* ================================================================== *)
(** * The matcher ([component_matcher.py]) *)
(* ================================================================== *)

Module ComponentMatcher.

Inductive match_type : Type := Auto | Review | New.

(** The instance: its database and the two thresholds. *)
Record t : Type := {
  db : Database.t;
  auto_threshold : Z;
  review_threshold : Z
}.

(** [__init__]: the thresholds come from [estimator_config]. *)
Definition init (db : Database.t) : t :=
  {| db := db;
     auto_threshold := EstimatorConfig.AUTO_MATCH_THRESHOLD;
     review_threshold := EstimatorConfig.REVIEW_THRESHOLD |}.

(** A detected component: a dictionary whose values are strings or
    [None]. *)
Definition detected : Type := Dict.t (option string).

(** [f"{itemname} {manufacturer} {model_number}".strip()] *)
Definition search_string (itemname manufacturer model_number : option string)
  : string :=
  Py.strip (Py.format itemname ++ " " ++ Py.format manufacturer ++ " "
            ++ Py.format model_number).

Definition detected_str (d : detected) : string :=
  search_string (Dict.get d "itemname" (Some ""))
                (Dict.get d "manufacturer" (Some ""))
                (Dict.get d "model_number" (Some "")).

(** [detected.get('itclass', 'OTHER')] *)
Definition detected_itclass (d : detected) : option string :=
  Dict.get d "itclass" (Some "OTHER").

Definition candidate_str (c : Database.component) : string :=
  search_string (Database.itemname c) (Database.manufacturer c)
                (Database.model_number c).

(** [for candidate in candidates: candidate_dict[candidate_str] =
    candidate], from the dictionary [start]. *)
Definition fill (start : Dict.t Database.component)
  (candidates : list Database.component) : Dict.t Database.component :=
  fold_left (fun d c => Dict.set d (candidate_str c) c) candidates start.

(** [candidate_dict = {}] and the loop. *)
Definition candidate_dict (candidates : list Database.component)
  : Dict.t Database.component :=
  fill [] candidates.

(** The [if match_score >= self.auto_threshold ... elif ... else]
    cascade. *)
Definition classify (self : t) (match_score : Z) : match_type :=
  if (auto_threshold self <=? match_score)%Z then Auto
  else if (review_threshold self <=? match_score)%Z then Review
  else New.

(** A suggestion: the copy of a component with its ['match_score']. *)
Record suggestion : Type := {
  component : Database.component;
  match_score : Z
}.

Section WithScorer.

Variable scorer : string -> string -> Z.

Definition match_component (self : t) (d : detected)
  : outcome (option Z * Z * match_type) :=
  let itclass := detected_itclass d in
  candidates <- Database.get_all_components (db self) itclass ;;
  match candidates with
  | [] => Returned (None, 0%Z, New)
  | _ =>
      let cdict := candidate_dict candidates in
      match Process.extractOne scorer (detected_str d) (Dict.keys cdict) with
      | None => Returned (None, 0%Z, New)
      | Some (match_str, score) =>
          matched_component <- Dict.item cdict match_str ;;
          Returned (Some (Database.component_id matched_component),
                    score, classify self score)
      end
  end.

(** [results = []; for match_str, score in matches: ...append(component)] *)
Fixpoint collect_suggestions (cdict : Dict.t Database.component)
  (matches : list (string * Z)) : outcome (list suggestion) :=
  match matches with
  | [] => Returned []
  | (match_str, score) :: rest =>
      c <- Dict.item cdict match_str ;;
      results <- collect_suggestions cdict rest ;;
      Returned ({| component := c; match_score := score |} :: results)
  end.

Definition get_match_suggestions (self : t) (d : detected) (limit : Z)
  : outcome (list suggestion) :=
  let itclass := detected_itclass d in
  candidates <- Database.get_all_components (db self) itclass ;;
  match candidates with
  | [] => Returned []
  | _ =>
      let cdict := candidate_dict candidates in
      collect_suggestions cdict
        (Process.extract scorer (detected_str d) (Dict.keys cdict) limit)
  end.

End WithScorer.

End ComponentMatcher.

(* ================================================================== *)
(** * Sample data *)
(* ================================================================== *)

Module Sample.

Import ComponentMatcher.

(** A scorer with the range of the library's: 100 for a choice equal to
    the query, 0 for any other. *)
Definition scorer (query choice : string) : Z :=
  if String.eqb query choice then 100%Z else 0%Z.

Definition row (id : Z) (name cls mfg model : string) : Database.component :=
  {| Database.component_id := id;
     Database.itemname := Some name;
     Database.itclass := Some cls;
     Database.manufacturer := Some mfg;
     Database.model_number := Some model;
     Database.is_active := true |}.

(** A library with one contactor, and two MCB rows that read alike. *)
Definition library : Database.t :=
  {| Database.cursor := true;
     Database.component_library :=
       [ row 7 "Contactor 40A" "CONTACTOR" "ABB" "AF40";
         row 11 "MCB 63A" "MCB" "Schneider" "C60N";
         row 12 "MCB 63A" "MCB" "Schneider" "C60N" ] |}.

Definition matcher : ComponentMatcher.t := ComponentMatcher.init library.

Definition relay : detected :=
  [ ("itemname", Some "Relay"); ("itclass", Some "CONTACTOR");
    ("manufacturer", Some "Siemens") ].

Definition breaker : detected :=
  [ ("itemname", Some "MCB 63A"); ("itclass", Some "MCB");
    ("manufacturer", Some "Schneider"); ("model_number", Some "C60N") ].

Definition timer : detected :=
  [ ("itemname", Some "Timer"); ("itclass", Some "TIMER") ].

End Sample.

(* ================================================================== *)
(** * Shapes of tokens, for the statements about stock codes *)
(* ================================================================== *)

Module Token.

(** All characters of [s] are decimal digits. *)
Fixpoint digits (s : string) : bool :=
  match s with
  | EmptyString => true
  | String c s' => Py.isdigit c && digits s'
  end.

(** [tok] begins with an integer followed by one of the letters A, V, P;
    what comes after the letter is free. *)
Definition begins_with_rating (tok : string) : Prop :=
  exists ds c rest,
    tok = ds ++ String c rest /\ ds <> EmptyString /\ digits ds = true /\
    (c = "A" \/ c = "V" \/ c = "P")%char.

(** The test the import loop applies to a part: one of the two [re.match]
    calls succeeds. *)
Definition is_rating (tok : string) : bool :=
  Re.matches Stock.re_amp_volt tok || Re.matches Stock.re_pole tok.

(** The first entry of the table found inside the upper-cased part. *)
Definition first_known (part : string) : option string :=
  find (fun mfg => Py.contains mfg (Py.upper part)) Stock.known_manufacturers.

(** The part contains an entry of the table. *)
Definition names_manufacturer (part : string) : bool :=
  match first_known part with
  | Some _ => true
  | None => false
  end.

(** The manufacturer a part stands for: the canonical name when the first
    entry found in it is one of SCH, SIE, LEG, HAG, MIT, the part itself
    for any other entry. *)
Definition resolve (part : string) : string :=
  match first_known part with
  | Some mfg => Stock.manufacturer_for mfg part
  | None => "Unknown"
  end.

End Token.

(* ================================================================== *)
(** * More Python built-ins *)
(* ================================================================== *)

Module PyText.

(** [c.lower()] for one character: A..Z and the accented Latin-1 capitals
    move up by 32. *)
Definition lower_char (c : ascii) : ascii :=
  let n := N_of_ascii c in
  if (((65 <=? n) && (n <=? 90))
      || ((192 <=? n) && (n <=? 222) && negb (n =? 215)))%N
  then ascii_of_N (n + 32)
  else c.

(** [s.lower()] *)
Fixpoint lower (s : string) : string :=
  match s with
  | EmptyString => EmptyString
  | String c s' => String (lower_char c) (lower s')
  end.

(** [x.lower()] of a value that is a string or [None]. *)
Definition lower_of (x : option string) : outcome string :=
  match x with
  | Some s => Returned (lower s)
  | None => Raised "AttributeError"
  end.

(** [s.split()]: the runs of characters that are not white space. *)
Fixpoint split_ws (s : string) : list string :=
  match s with
  | EmptyString => []
  | String c s' =>
      if Py.isspace c then split_ws s'
      else
        match s' with
        | EmptyString => [String c EmptyString]
        | String c' _ =>
            if Py.isspace c' then String c EmptyString :: split_ws s'
            else match split_ws s' with
                 | [] => [String c EmptyString]
                 | w :: ws => String c w :: ws
                 end
        end
  end.

(** No character of [s] is white space. *)
Fixpoint no_space (s : string) : bool :=
  match s with
  | EmptyString => true
  | String c s' => negb (Py.isspace c) && no_space s'
  end.

(** [x or default] on a string or [None]. *)
Definition or_else (x : option string) (default : string) : string :=
  if Py.truthy x then Py.format x else default.

End PyText.

(* ================================================================== *)
(** * The rest of the matcher ([component_matcher.py]) *)
(* ================================================================== *)

Module MatcherBatch.

(** One entry of the list [batch_match] returns. *)
Record result : Type := {
  detected : ComponentMatcher.detected;
  matched_component_id : option Z;
  match_score : Z;
  match_type : ComponentMatcher.match_type;
  suggestions : list ComponentMatcher.suggestion
}.

(** A Python number that is an [int], or the [float] that the true
    division [num / den] of two [int]s gives. *)
Inductive number : Type :=
| Int (n : Z)
| TrueDiv (num den : Z).

(** The dictionary [get_match_statistics] returns. *)
Record statistics : Type := {
  total : Z;
  auto_matched : Z;
  needs_review : Z;
  new_items : Z;
  avg_confidence : number
}.

(** The [if match_type == 'auto': ... elif ... else: ...] counters. *)
Definition count (stats : statistics) (ty : ComponentMatcher.match_type)
  : statistics :=
  match ty with
  | ComponentMatcher.Auto =>
      {| total := total stats;
         auto_matched := auto_matched stats + 1;
         needs_review := needs_review stats;
         new_items := new_items stats;
         avg_confidence := avg_confidence stats |}
  | ComponentMatcher.Review =>
      {| total := total stats;
         auto_matched := auto_matched stats;
         needs_review := needs_review stats + 1;
         new_items := new_items stats;
         avg_confidence := avg_confidence stats |}
  | ComponentMatcher.New =>
      {| total := total stats;
         auto_matched := auto_matched stats;
         needs_review := needs_review stats;
         new_items := new_items stats + 1;
         avg_confidence := avg_confidence stats |}
  end%Z.

(** The loop of [get_match_statistics] over the results, from the
    counters and the running [total_score]. *)
Definition tally (results : list result) (start : statistics * Z)
  : statistics * Z :=
  fold_left
    (fun acc r => (count (fst acc) (match_type r),
                   (snd acc + match_score r)%Z))
    results start.

Definition get_match_statistics (results : list result) : statistics :=
  let len := Z.of_nat (List.length results) in
  let stats :=
    {| total := len; auto_matched := 0; needs_review := 0;
       new_items := 0; avg_confidence := Int 0 |}%Z in
  let acc := tally results (stats, 0%Z) in
  if (0 <? len)%Z then
    {| total := total (fst acc);
       auto_matched := auto_matched (fst acc);
       needs_review := needs_review (fst acc);
       new_items := new_items (fst acc);
       avg_confidence := TrueDiv (snd acc) len |}
  else fst acc.

(** [for component in components: if ... : return component] and the final
    [return None] of [match_by_manufacturer_model].  The [and] evaluates
    its second comparison only when the first holds. *)
Fixpoint first_exact (manufacturer model_number : string)
  (components : list Database.component)
  : outcome (option Database.component) :=
  match components with
  | [] => Returned None
  | c :: rest =>
      m <- PyText.lower_of (Database.manufacturer c) ;;
      if String.eqb m (PyText.lower manufacturer) then
        n <- PyText.lower_of (Database.model_number c) ;;
        if String.eqb n (PyText.lower model_number) then Returned (Some c)
        else first_exact manufacturer model_number rest
      else first_exact manufacturer model_number rest
  end.

(** The row has a manufacturer and a model number that equal the given
    ones when letter case is ignored. *)
Definition is_exact (manufacturer model_number : string)
  (c : Database.component) : bool :=
  match Database.manufacturer c, Database.model_number c with
  | Some m, Some n =>
      String.eqb (PyText.lower m) (PyText.lower manufacturer)
      && String.eqb (PyText.lower n) (PyText.lower model_number)
  | _, _ => false
  end.

(** Reading the row raises: the manufacturer is [None], or it equals the
    given one and the model number is [None]. *)
Definition is_broken (manufacturer : string) (c : Database.component)
  : bool :=
  match Database.manufacturer c, Database.model_number c with
  | None, _ => true
  | Some m, None => String.eqb (PyText.lower m) (PyText.lower manufacturer)
  | Some _, Some _ => false
  end.

(** The number of results with the decision [ty]. *)
Definition count_of (ty : ComponentMatcher.match_type)
  (results : list result) : Z :=
  Z.of_nat
    (List.length
       (filter
          (fun r =>
             match match_type r, ty with
             | ComponentMatcher.Auto, ComponentMatcher.Auto
             | ComponentMatcher.Review, ComponentMatcher.Review
             | ComponentMatcher.New, ComponentMatcher.New => true
             | _, _ => false
             end)
          results)).

(** The sum of the scores of the results. *)
Definition score_sum (results : list result) : Z :=
  fold_right Z.add 0%Z (map match_score results).

Section WithSearch.

(** [Database.search_components(search_term, itclass, limit)]: the text
    search is the database server's and stays a parameter. *)
Variable search_components :
  Database.t -> string -> option string -> Z
  -> outcome (list Database.component).

Definition match_by_manufacturer_model (self : ComponentMatcher.t)
  (manufacturer model_number : string)
  : outcome (option Database.component) :=
  if negb (Py.truthy (Some manufacturer))
     || negb (Py.truthy (Some model_number))
  then Returned None
  else
    components <- search_components (ComponentMatcher.db self)
                    (manufacturer ++ " " ++ model_number) None 10%Z ;;
    first_exact manufacturer model_number components.

End WithSearch.

Section WithScorer.

Variable scorer : string -> string -> Z.

(** [batch_match]: one result per detected component, in order; the
    suggestions are asked for when the decision is not ['auto']. *)
Fixpoint batch_match (self : ComponentMatcher.t)
  (detected_components : list ComponentMatcher.detected)
  : outcome (list result) :=
  match detected_components with
  | [] => Returned []
  | d :: rest =>
      m <- ComponentMatcher.match_component scorer self d ;;
      let '(component_id, score, ty) := m in
      sugg <- match ty with
              | ComponentMatcher.Auto => Returned []
              | _ => ComponentMatcher.get_match_suggestions scorer self d 3%Z
              end ;;
      results <- batch_match self rest ;;
      Returned ({| detected := d;
                   matched_component_id := component_id;
                   match_score := score;
                   match_type := ty;
                   suggestions := sugg |} :: results)
  end.

End WithScorer.

End MatcherBatch.

(* ================================================================== *)
(** * What the database stores and imports ([database.py]) *)
(* ================================================================== *)

Module Detection.

(** The [CASE] of [update_detection_match], which sets [match_status]
    from the score. *)
Definition match_status (match_score : Z) : string :=
  if (85 <=? match_score)%Z then "matched"
  else if (70 <=? match_score)%Z then "review"
  else "pending".

End Detection.

(** The fields [import_from_erp] derives from the item name of one row. *)
Module ErpItem.

Definition known_manufacturers : list string :=
  [ "Schneider"; "ABB"; "Siemens"; "Legrand"; "Hager"; "GE" ].

(** [for mfg in known_manufacturers: if mfg in row['itemname']: ...;
    break], giving [(manufacturer, model_number)]. *)
Fixpoint scan (mfgs : list string) (itemname : string) (parts : list string)
  : string * string :=
  match mfgs with
  | [] => ("Unknown", "Unknown")
  | mfg :: rest =>
      if Py.contains mfg itemname then
        (mfg,
         if (1 <? List.length parts)%nat then List.last parts "Unknown"
         else "Unknown")
      else scan rest itemname parts
  end.

Record fields : Type := {
  itemname : string;
  itclass : string;
  manufacturer : string;
  model_number : string
}.

Definition parse_row (row_itemname : string) (row_itclass : option string)
  : fields :=
  let parts := PyText.split_ws row_itemname in
  let mm := scan known_manufacturers row_itemname parts in
  {| itemname := row_itemname;
     itclass := PyText.or_else row_itclass "OTHER";
     manufacturer := fst mm;
     model_number := snd mm |}.

End ErpItem.

(** A search for the examples: it finds the rows of the library, whatever
    is asked. *)
Module SampleSearch.

Definition search (database : Database.t) (term : string)
  (itclass : option string) (limit : Z)
  : outcome (list Database.component) :=
  Returned (Database.component_library database).

End SampleSearch.

(** The decisions in the order of rising confidence. *)
Module Decision.

Definition rank (ty : ComponentMatcher.match_type) : Z :=
  match ty with
  | ComponentMatcher.New => 0
  | ComponentMatcher.Review => 1
  | ComponentMatcher.Auto => 2
  end.

End Decision.

(* ================================================================== *)
(** * Facts about the built-ins *)
(* ================================================================== *)

Module PyFacts.

Lemma append_nil_r (s : string) : s ++ "" = s.
Proof. induction s; simpl; congruence. Qed.

Lemma append_assoc (a b c : string) : (a ++ b) ++ c = a ++ (b ++ c).
Proof. induction a; simpl; congruence. Qed.

Lemma append_eq_nil (a b : string) : a ++ b = "" -> a = "" /\ b = "".
Proof. destruct a; simpl; intros H; [auto | discriminate]. Qed.

Lemma split_not_nil (sep : ascii) (s : string) : Py.split sep s <> [].
Proof.
  destruct s as [|c s]; simpl; [discriminate|].
  destruct (Ascii.eqb c sep); [discriminate|].
  destruct (Py.split sep s); discriminate.
Qed.

(** A string without the separator is its own single piece. *)
Lemma split_no_sep (sep : ascii) (s : string) :
  Py.contains (String sep "") s = false -> Py.split sep s = [s].
Proof.
  induction s as [|c s IH]; simpl; [reflexivity|].
  intros H. apply orb_false_iff in H as [Hp Hc].
  destruct (Ascii.eqb_spec c sep) as [->|Hne].
  - simpl in Hp. destruct (ascii_dec sep sep); [|congruence].
    destruct s; discriminate.
  - rewrite (IH Hc). reflexivity.
Qed.

(** The first piece is what stands before the first separator. *)
Lemma split_head (sep : ascii) (s : string) :
  exists p ps rest,
    Py.split sep s = p :: ps /\ s = p ++ rest /\
    Py.contains (String sep "") p = false /\
    (rest = "" /\ ps = [] \/ exists r, rest = String sep r).
Proof.
  induction s as [|c s IH]; simpl.
  - exists "", [], "". repeat split; auto.
  - destruct (Ascii.eqb_spec c sep) as [->|Hne].
    + exists "", (Py.split sep s), (String sep s). repeat split; eauto.
    + destruct IH as (p & ps & rest & Hs & Heq & Hno & Hrest).
      rewrite Hs. exists (String c p), ps, rest.
      repeat split; auto.
      * simpl. congruence.
      * simpl. rewrite Hno.
        destruct (ascii_dec sep c) as [E|_]; [congruence|].
        reflexivity.
Qed.

End PyFacts.

(* ================================================================== *)
(** * Facts about [re.match] *)
(* ================================================================== *)

Module ReFacts.

Import Re.

Lemma nullable_lang (r : regex) : nullable r = true <-> lang r "".
Proof.
  split.
  - induction r; simpl; intros H; try discriminate.
    + constructor.
    + apply andb_prop in H as [H1 H2].
      change "" with ("" ++ ""). constructor; auto.
    + apply orb_prop in H as [H|H];
        [apply lang_alt_l | apply lang_alt_r]; auto.
    + constructor.
  - induction r; simpl; intros H; inversion H; subst; auto.
    + match goal with E : _ ++ _ = "" |- _ =>
        apply PyFacts.append_eq_nil in E as [-> ->] end.
      rewrite IHr1, IHr2; auto.
    + rewrite IHr1; auto.
    + rewrite IHr2; auto using orb_true_r.
Qed.

Lemma deriv_sound (c : ascii) (r : regex) :
  forall s, lang (deriv c r) s -> lang r (String c s).
Proof.
  induction r; simpl; intros s H.
  - inversion H.
  - inversion H.
  - destruct (p c) eqn:E; inversion H; subst. constructor; auto.
  - assert (Hcat : forall w, lang (Cat (deriv c r1) r2) w ->
                             lang (Cat r1 r2) (String c w)).
    { intros w Hw. inversion Hw; subst.
      change (String c (s1 ++ s2)) with (String c s1 ++ s2).
      constructor; auto. }
    destruct (nullable r1) eqn:E.
    + inversion H; subst; auto.
      change (String c s) with ("" ++ String c s).
      constructor; auto. apply nullable_lang; auto.
    + auto.
  - inversion H; subst; [apply lang_alt_l | apply lang_alt_r]; auto.
  - inversion H; subst.
    change (String c (s1 ++ s2)) with (String c s1 ++ s2).
    constructor; auto.
Qed.

Lemma deriv_complete (c : ascii) (r : regex) (w : string) :
  lang r w -> forall t, w = String c t -> lang (deriv c r) t.
Proof.
  induction 1 as [ | p a Hp | r1 r2 s1 s2 H1 IH1 H2 IH2 | r1 r2 s H1 IH1
                 | r1 r2 s H2 IH2 | r | r s1 s2 H1 IH1 H2 IH2 ];
    intros t E; simpl.
  - discriminate.
  - injection E as -> <-. rewrite Hp. constructor.
  - destruct s1 as [|a s1]; simpl in E.
    + assert (N : nullable r1 = true) by (apply nullable_lang; auto).
      rewrite N. apply lang_alt_r. auto.
    + injection E as -> <-.
      assert (L : lang (Cat (deriv c r1) r2) (s1 ++ s2))
        by (constructor; auto).
      destruct (nullable r1); [apply lang_alt_l|]; auto.
  - apply lang_alt_l; auto.
  - apply lang_alt_r; auto.
  - discriminate.
  - destruct s1 as [|a s1]; simpl in E.
    + apply (IH2 t E).
    + injection E as -> <-. constructor; auto.
Qed.

(** [re.match] succeeds exactly when a prefix of the string is a word of
    the expression. *)
Lemma matches_prefix (r : regex) (s : string) :
  matches r s = true <-> exists p rest, s = p ++ rest /\ lang r p.
Proof.
  revert r. induction s as [|c s IH]; intros r; simpl.
  - rewrite orb_false_r, nullable_lang. split.
    + intros H. exists "", "". auto.
    + intros (p & rest & E & H). symmetry in E.
      apply PyFacts.append_eq_nil in E as [-> _]. auto.
  - rewrite orb_true_iff, IH, nullable_lang. split.
    + intros [H | (p & rest & E & H)].
      * exists "", (String c s). auto.
      * exists (String c p), rest. split; [simpl; congruence|].
        apply deriv_sound; auto.
    + intros (p & rest & E & H). destruct p as [|a p]; [left; auto|].
      right. simpl in E. injection E as <- ->.
      exists p, rest. split; auto. apply (deriv_complete c r _ H). auto.
Qed.

Lemma star_sym (p : ascii -> bool) (s : string) :
  lang (Star (Sym p)) s ->
  forall c, In c (list_ascii_of_string s) -> p c = true.
Proof.
  remember (Star (Sym p)) as r eqn:E. induction 1; try discriminate.
  - intros c [].
  - injection E as ->. inversion H; subst. simpl.
    intros a [<- | Hin]; auto.
Qed.

Lemma sym_star (p : ascii -> bool) (s : string) :
  (forall c, In c (list_ascii_of_string s) -> p c = true) ->
  lang (Star (Sym p)) s.
Proof.
  induction s as [|c s IH]; intros H.
  - constructor.
  - change (String c s) with (String c "" ++ s). constructor.
    + constructor. apply H. simpl; auto.
    + apply IH. intros a Ha. apply H. simpl; auto.
Qed.

Lemma digits_spec (s : string) :
  Token.digits s = true <->
  forall c, In c (list_ascii_of_string s) -> Py.isdigit c = true.
Proof.
  induction s as [|c s IH]; simpl.
  - split; [intros _ a [] | auto].
  - rewrite andb_true_iff, IH. split.
    + intros [Hc Hs] a [<- | Ha]; auto.
    + intros H. split; [|intros a Ha]; apply H; auto.
Qed.

(** The words of [\d+[letters]]: digits, at least one, and one letter. *)
Lemma integer_letter_lang (letters w : string) :
  lang (Cat (Plus digit) (class letters)) w <->
  exists ds c, w = ds ++ String c "" /\ ds <> "" /\ Token.digits ds = true /\
               Py.contains (String c "") letters = true.
Proof.
  split.
  - intros H. inversion H as [| |r1 r2 s1 s2 H1 H2| | | |]; subst.
    inversion H2; subst.
    inversion H1 as [| |r1 r2 d ds Hd Hds| | | |]; subst.
    inversion Hd; subst.
    exists (String c0 "" ++ ds), c. repeat split; auto.
    + discriminate.
    + simpl. rewrite H4. apply digits_spec. apply star_sym; auto.
  - intros (ds & c & -> & Hne & Hd & Hc).
    constructor; [|constructor; auto].
    destruct ds as [|d ds]; [congruence|].
    simpl in Hd. apply andb_prop in Hd as [Hd Hds].
    change (String d ds) with (String d "" ++ ds).
    constructor; [constructor; auto|].
    apply sym_star. apply digits_spec; auto.
Qed.

End ReFacts.

(* ================================================================== *)
(** * The stock-code parser: helper lemmas *)
(* ================================================================== *)

Module StockFacts.

Lemma find_app {A : Type} (f : A -> bool) (l1 l2 : list A) :
  find f (l1 ++ l2)%list =
  match find f l1 with Some x => Some x | None => find f l2 end.
Proof.
  induction l1 as [|x l1 IH]; simpl; [reflexivity|].
  destruct (f x); auto.
Qed.

Lemma find_none_existsb {A : Type} (f : A -> bool) (l : list A) :
  existsb f l = false -> find f l = None.
Proof.
  induction l as [|x l IH]; simpl; [reflexivity|].
  destruct (f x); simpl; [discriminate | exact IH].
Qed.

Lemma existsb_rev {A : Type} (f : A -> bool) (l : list A) :
  existsb f (rev l) = existsb f l.
Proof.
  induction l as [|x l IH]; simpl; [reflexivity|].
  rewrite existsb_app, IH. simpl. rewrite orb_false_r. apply orb_comm.
Qed.

(** One turn of the outer loop: a part that contains an entry of the
    table sets the manufacturer, any other part leaves it as it is. *)
Lemma scan_known_resolve (part manufacturer : string) :
  Stock.scan_known Stock.known_manufacturers part manufacturer =
  if Token.names_manufacturer part then Token.resolve part else manufacturer.
Proof.
  unfold Token.names_manufacturer, Token.resolve, Token.first_known.
  induction Stock.known_manufacturers as [|mfg rest IH]; simpl.
  - reflexivity.
  - destruct (Py.contains mfg (Py.upper part)); [reflexivity | exact IH].
Qed.

(** The whole loop, from any starting value. *)
Lemma fold_manufacturer (parts : list string) (start : string) :
  fold_left
    (fun manufacturer part =>
       Stock.scan_known Stock.known_manufacturers part manufacturer)
    parts start =
  match find Token.names_manufacturer (rev parts) with
  | Some part => Token.resolve part
  | None => start
  end.
Proof.
  revert start. induction parts as [|p ps IH]; intros start;
    cbn [fold_left rev].
  - reflexivity.
  - rewrite IH, find_app, scan_known_resolve. cbn [find].
    destruct (find Token.names_manufacturer (rev ps)); [reflexivity|].
    destruct (Token.names_manufacturer p); reflexivity.
Qed.

Lemma extract_manufacturer_find (parts : list string) :
  Stock.extract_manufacturer parts =
  match find Token.names_manufacturer (rev parts) with
  | Some part => Token.resolve part
  | None => "Unknown"
  end.
Proof. apply fold_manufacturer. Qed.

(** The rating loop keeps, in order, the parts that pass the test. *)
Lemma fold_ratings (parts acc : list string) :
  fold_left
    (fun ratings part =>
       if Re.matches Stock.re_amp_volt part then (ratings ++ [part])%list
       else if Re.matches Stock.re_pole part then (ratings ++ [part])%list
       else ratings)
    parts acc = (acc ++ filter Token.is_rating parts)%list.
Proof.
  revert acc. induction parts as [|p ps IH]; intros acc; simpl.
  - rewrite app_nil_r. reflexivity.
  - rewrite IH. unfold Token.is_rating.
    destruct (Re.matches Stock.re_amp_volt p); simpl.
    + rewrite <- app_assoc. reflexivity.
    + destruct (Re.matches Stock.re_pole p); simpl.
      * rewrite <- app_assoc. reflexivity.
      * reflexivity.
Qed.

Lemma collect_ratings_filter (parts : list string) :
  Stock.collect_ratings parts = filter Token.is_rating parts.
Proof. apply (fold_ratings parts []). Qed.

Lemma join_ratings_join (l : list string) :
  Stock.join_ratings l = Py.join " " l.
Proof. destruct l; reflexivity. Qed.

Lemma one_of_AV (c : ascii) :
  Py.contains (String c "") "AV" = true <-> (c = "A" \/ c = "V")%char.
Proof.
  simpl. destruct (ascii_dec c "A") as [->|NA]; simpl; [tauto|].
  destruct (ascii_dec c "V") as [->|NV]; simpl; [tauto|].
  split; [discriminate | intros [?|?]; contradiction].
Qed.

Lemma one_of_P (c : ascii) :
  Py.contains (String c "") "P" = true <-> (c = "P")%char.
Proof.
  simpl. destruct (ascii_dec c "P") as [->|NP]; simpl; [tauto|].
  split; [discriminate | contradiction].
Qed.

(** What the two [re.match] calls accept. *)
Lemma is_rating_spec (tok : string) :
  Token.is_rating tok = true <-> Token.begins_with_rating tok.
Proof.
  unfold Token.is_rating, Token.begins_with_rating,
    Stock.re_amp_volt, Stock.re_pole.
  rewrite orb_true_iff, !ReFacts.matches_prefix. split.
  - intros [(p & rest & -> & L) | (p & rest & -> & L)];
      apply ReFacts.integer_letter_lang in L
        as (ds & c & -> & Hne & Hd & Hc);
      exists ds, c, rest; rewrite PyFacts.append_assoc; simpl;
      repeat split; auto.
    + apply one_of_AV in Hc. tauto.
    + apply one_of_P in Hc. tauto.
  - intros (ds & c & rest & -> & Hne & Hd & [Hc | [Hc | Hc]]).
    + left. exists (ds ++ String c ""), rest.
      rewrite PyFacts.append_assoc. split; [reflexivity|].
      apply ReFacts.integer_letter_lang. exists ds, c.
      repeat split; auto. apply one_of_AV; auto.
    + left. exists (ds ++ String c ""), rest.
      rewrite PyFacts.append_assoc. split; [reflexivity|].
      apply ReFacts.integer_letter_lang. exists ds, c.
      repeat split; auto. apply one_of_AV; auto.
    + right. exists (ds ++ String c ""), rest.
      rewrite PyFacts.append_assoc. split; [reflexivity|].
      apply ReFacts.integer_letter_lang. exists ds, c.
      repeat split; auto. apply one_of_P; auto.
Qed.

End StockFacts.

(* ================================================================== *)
(** * The stock-code parser against the specification *)
(* ================================================================== *)

Module StockProps.

(** A stock code one of whose parts contains the entry GE without being a
    manufacturer token: the specification's scan finds no alias and leaves
    [Unknown], the import loop takes the part VOLTAGE for the
    manufacturer. *)
Lemma manufacturer_inside_word :
  Stock.manufacturer (Stock.parse_stkcode "METER-VOLTAGE-415V") = "VOLTAGE"
  /\ StockSpec.manufacturer "METER-VOLTAGE-415V" = "Unknown".
Proof. split; reflexivity. Qed.

(** C4, in the form the code satisfies.
    A part names a manufacturer when, upper-cased, it
    contains an entry of the table; it then stands for the canonical name
    of the first entry, in table order, found in it (SCH, SIE, LEG, HAG,
    MIT) or, for any other entry, for the part itself.  The manufacturer
    is [Unknown] when no part names one, it is what the part stands for
    when exactly one part names one, and in every case it is [Unknown] or
    what one of the parts stands for. *)
Theorem manufacturer_of_stkcode (stkcode : string) :
  let parts := Py.split "-" stkcode in
  let m := Stock.manufacturer (Stock.parse_stkcode stkcode) in
  (existsb Token.names_manufacturer parts = false -> m = "Unknown") /\
  (forall before part after,
      parts = (before ++ part :: after)%list ->
      existsb Token.names_manufacturer before = false ->
      Token.names_manufacturer part = true ->
      existsb Token.names_manufacturer after = false ->
      m = Token.resolve part) /\
  (m = "Unknown" \/
   exists part, In part parts /\ Token.names_manufacturer part = true /\
                m = Token.resolve part) /\
  (forall part,
      Stock.manufacturer_for "SCH" part = "Schneider" /\
      Stock.manufacturer_for "SIE" part = "Siemens" /\
      Stock.manufacturer_for "LEG" part = "Legrand" /\
      Stock.manufacturer_for "HAG" part = "Hager" /\
      Stock.manufacturer_for "MIT" part = "Mitsubishi" /\
      forall mfg, In mfg Stock.known_manufacturers ->
                  ~ In mfg ["SCH"; "SIE"; "LEG"; "HAG"; "MIT"] ->
                  Stock.manufacturer_for mfg part = part).
Proof.
  cbv zeta. cbn [Stock.parse_stkcode Stock.manufacturer].
  rewrite StockFacts.extract_manufacturer_find.
  split; [|split; [|split]].
  - intros H. rewrite StockFacts.find_none_existsb; [reflexivity|].
    rewrite StockFacts.existsb_rev. exact H.
  - intros before part after E _ Hp Ha. rewrite E, rev_app_distr.
    cbn [rev]. rewrite <- app_assoc, StockFacts.find_app.
    rewrite StockFacts.find_none_existsb
      by (rewrite StockFacts.existsb_rev; exact Ha).
    cbn [app find]. rewrite Hp. reflexivity.
  - destruct (find Token.names_manufacturer (rev (Py.split "-" stkcode)))
      as [part|] eqn:F; [right | left; reflexivity].
    apply find_some in F as [Hin Hp]. exists part.
    rewrite <- in_rev in Hin. auto.
  - intros part. do 5 (split; [reflexivity|]).
    intros mfg Hin Hno. simpl in Hin.
    repeat (destruct Hin as [<- | Hin];
            [first [reflexivity | exfalso; apply Hno; simpl; tauto]|]).
    contradiction.
Qed.

Lemma manufacturer_of_stkcode_witness :
  Stock.manufacturer (Stock.parse_stkcode "MCB-3P-63A-SCH") = "Schneider".
Proof.
  apply (proj1 (proj2 (manufacturer_of_stkcode "MCB-3P-63A-SCH"))
           ["MCB"; "3P"; "63A"] "SCH" []); reflexivity.
Defined.

(** A stock code without a hyphen: the class is the code itself, not
    [OTHER]. *)
Lemma itclass_without_hyphen :
  Py.contains "-" "MCB63A" = false /\
  Stock.itclass (Stock.parse_stkcode "MCB63A") = "MCB63A" /\
  StockSpec.itclass "MCB63A" = "OTHER".
Proof. repeat split; reflexivity. Qed.

(** C5, in the form the code satisfies.
    The class is the first hyphen-delimited segment of
    the stock code: what stands before the first hyphen, and the whole
    code when it has no hyphen. *)
Theorem itclass_first_segment (stkcode : string) :
  let cls := Stock.itclass (Stock.parse_stkcode stkcode) in
  Py.contains "-" cls = false /\
  (exists rest, stkcode = cls ++ rest /\
                (rest = "" \/ exists r, rest = String "-" r)) /\
  (Py.contains "-" stkcode = false -> cls = stkcode).
Proof.
  cbv zeta. cbn [Stock.parse_stkcode Stock.itclass].
  split; [|split].
  - destruct (PyFacts.split_head "-" stkcode)
      as (p & ps & rest & -> & _ & Hno & _). exact Hno.
  - destruct (PyFacts.split_head "-" stkcode)
      as (p & ps & rest & -> & E & _ & Hr).
    exists rest. split; [exact E|]. destruct Hr as [[-> _]|Hr]; auto.
  - intros H. rewrite (PyFacts.split_no_sep "-" stkcode H). reflexivity.
Qed.

Lemma itclass_first_segment_witness :
  Stock.itclass (Stock.parse_stkcode "MCB63A") = "MCB63A".
Proof.
  apply (proj2 (proj2 (itclass_first_segment "MCB63A"))). reflexivity.
Defined.

(** A part that goes on after the letter: 63AMP is collected by the
    import loop, while it is not of the shape integer + A. *)
Lemma rating_keeps_longer_part :
  Stock.rating (Stock.parse_stkcode "MCB-63AMP-SCH") = "63AMP" /\
  StockSpec.rating "MCB-63AMP-SCH" = "".
Proof. split; reflexivity. Qed.

(** C6, in the form the code satisfies.
    The rating is made of the parts that begin with an
    integer followed by A, V or P (whatever comes after the letter), joined
    with a single space in the order met, and is empty when there is none;
    "MCB-3P-63A-SCH" gives "3P 63A". *)
Theorem rating_of_stkcode (stkcode : string) :
  Stock.rating (Stock.parse_stkcode stkcode) =
    Py.join " " (filter Token.is_rating (Py.split "-" stkcode)) /\
  (forall tok, Token.is_rating tok = true <-> Token.begins_with_rating tok) /\
  (filter Token.is_rating (Py.split "-" stkcode) = [] ->
   Stock.rating (Stock.parse_stkcode stkcode) = "") /\
  Stock.rating (Stock.parse_stkcode "MCB-3P-63A-SCH") = "3P 63A".
Proof.
  cbn [Stock.parse_stkcode Stock.rating].
  rewrite StockFacts.join_ratings_join, StockFacts.collect_ratings_filter.
  split; [reflexivity|]. split; [exact StockFacts.is_rating_spec|].
  split; [intros ->; reflexivity | reflexivity].
Qed.

Lemma rating_of_stkcode_witness :
  Stock.rating (Stock.parse_stkcode "CONTACTOR-ABB") = "".
Proof.
  apply (proj1 (proj2 (proj2 (rating_of_stkcode "CONTACTOR-ABB")))).
  reflexivity.
Defined.

End StockProps.

(* ================================================================== *)
(** * Facts about dictionaries and the candidate dictionary *)
(* ================================================================== *)

Module DictFacts.

Section Generic.

Context {V : Type}.

Lemma lookup_set (d : Dict.t V) (k k' : string) (v : V) :
  Dict.lookup (Dict.set d k v) k' =
  if String.eqb k k' then Some v else Dict.lookup d k'.
Proof.
  induction d as [|[k0 v0] d IH]; simpl.
  - reflexivity.
  - destruct (String.eqb_spec k0 k) as [->|N]; simpl.
    + destruct (String.eqb k k'); reflexivity.
    + rewrite IH. destruct (String.eqb_spec k0 k') as [->|N'];
        [|reflexivity].
      destruct (String.eqb_spec k k'); congruence.
Qed.

Lemma keys_set (d : Dict.t V) (k : string) (v : V) :
  Dict.keys (Dict.set d k v) =
  if in_dec string_dec k (Dict.keys d) then Dict.keys d
  else (Dict.keys d ++ [k])%list.
Proof.
  unfold Dict.keys. induction d as [|[k0 v0] d IH]; simpl.
  - reflexivity.
  - destruct (String.eqb_spec k0 k) as [->|N]; simpl.
    + destruct (string_dec k k); [|congruence].
      destruct (in_dec string_dec k (map fst d)); reflexivity.
    + rewrite IH. destruct (string_dec k0 k); [congruence|].
      destruct (in_dec string_dec k (map fst d)); reflexivity.
Qed.

Lemma lookup_in_keys (d : Dict.t V) (k : string) :
  In k (Dict.keys d) <-> exists v, Dict.lookup d k = Some v.
Proof.
  unfold Dict.keys. induction d as [|[k0 v0] d IH]; simpl.
  - split; [intros [] | intros [v E]; discriminate].
  - destruct (String.eqb_spec k0 k) as [->|N].
    + split; eauto.
    + rewrite <- IH. split; [intros [E|H]; [congruence|auto] | auto].
Qed.

End Generic.

Import ComponentMatcher.

Lemma fill_lookup (candidates : list Database.component) :
  forall start k,
    Dict.lookup (fill start candidates) k =
    match find (fun c => String.eqb (candidate_str c) k) (rev candidates) with
    | Some c => Some c
    | None => Dict.lookup start k
    end.
Proof.
  unfold fill.
  induction candidates as [|c cs IH]; intros start k; cbn [fold_left rev].
  - reflexivity.
  - rewrite IH, StockFacts.find_app, lookup_set. cbn [find].
    destruct (find _ (rev cs)); [reflexivity|].
    destruct (String.eqb (candidate_str c) k); reflexivity.
Qed.

Lemma fill_keys_in (candidates : list Database.component) :
  forall start k,
    In k (Dict.keys (fill start candidates)) <->
    In k (Dict.keys start) \/ In k (map candidate_str candidates).
Proof.
  unfold fill.
  induction candidates as [|c cs IH]; intros start k; cbn [fold_left map].
  - simpl. tauto.
  - rewrite IH, keys_set.
    destruct (in_dec string_dec (candidate_str c) (Dict.keys start)) as [I|I].
    + simpl. split; [tauto|]. intros [H|[<-|H]]; auto.
    + rewrite in_app_iff. simpl. tauto.
Qed.

Lemma fill_keys_nodup (candidates : list Database.component) :
  forall start,
    NoDup (Dict.keys start) -> NoDup (Dict.keys (fill start candidates)).
Proof.
  unfold fill.
  induction candidates as [|c cs IH]; intros start H; cbn [fold_left].
  - exact H.
  - apply IH. rewrite keys_set.
    destruct (in_dec string_dec (candidate_str c) (Dict.keys start)) as [I|I];
      [exact H|].
    apply NoDup_app; auto.
    + repeat constructor. intros [].
    + intros k Hk [<-|[]]. contradiction.
Qed.

(** The value found for a key is the last candidate that reads so. *)
Lemma find_rev_last {A : Type} (f : A -> bool) (l : list A) (x : A) :
  find f (rev l) = Some x ->
  exists before after,
    l = (before ++ x :: after)%list /\ f x = true /\
    forall y, In y after -> f y = false.
Proof.
  induction l as [|a l IH]; cbn [rev]; [discriminate|].
  rewrite StockFacts.find_app. destruct (find f (rev l)) as [y|] eqn:F.
  - intros E. injection E as ->.
    destruct (IH eq_refl) as (before & after & -> & Hx & Hafter).
    exists (a :: before), after. auto.
  - cbn [find]. destruct (f a) eqn:Fa; [|discriminate].
    intros E. injection E as ->.
    exists [], l. repeat split; auto.
    intros y Hy. apply (find_none _ _ F). rewrite <- in_rev. exact Hy.
Qed.

Lemma candidate_dict_last (candidates : list Database.component)
  (k : string) (c : Database.component) :
  Dict.lookup (candidate_dict candidates) k = Some c ->
  exists before after,
    candidates = (before ++ c :: after)%list /\ candidate_str c = k /\
    forall c', In c' after -> candidate_str c' <> candidate_str c.
Proof.
  unfold candidate_dict.
  rewrite fill_lookup. simpl.
  destruct (find _ (rev candidates)) as [c0|] eqn:F; [|discriminate].
  intros E. injection E as ->.
  apply find_rev_last in F as (before & after & E & Hc & Hafter).
  apply String.eqb_eq in Hc.
  exists before, after. repeat split; auto.
  intros c' Hin Heq. apply Hafter in Hin.
  rewrite Hc in Heq. apply String.eqb_neq in Hin. contradiction.
Qed.

Lemma candidate_dict_keys_in (candidates : list Database.component)
  (k : string) :
  In k (Dict.keys (candidate_dict candidates)) <->
  In k (map candidate_str candidates).
Proof.
  unfold candidate_dict.
  rewrite fill_keys_in. simpl. tauto.
Qed.

Lemma candidate_dict_keys_nodup (candidates : list Database.component) :
  NoDup (Dict.keys (candidate_dict candidates)).
Proof.
  unfold candidate_dict.
  apply fill_keys_nodup. constructor.
Qed.

(** As many keys as there are distinct search strings. *)
Lemma candidate_dict_keys_length (candidates : list Database.component) :
  List.length (Dict.keys (candidate_dict candidates)) =
  List.length (nodup string_dec (map candidate_str candidates)).
Proof.
  apply Nat.le_antisymm; apply NoDup_incl_length.
  - apply candidate_dict_keys_nodup.
  - intros k Hk. apply nodup_In. apply candidate_dict_keys_in. exact Hk.
  - apply NoDup_nodup.
  - intros k Hk. apply candidate_dict_keys_in.
    apply nodup_In in Hk. exact Hk.
Qed.

End DictFacts.

(* ================================================================== *)
(** * Facts about the calls into the matching library *)
(* ================================================================== *)

Module ProcessFacts.

Import Process.

Section WithScorer.

Variable scorer : string -> string -> Z.

Lemma extractWithoutOrder_in (query : string) (choices : list string)
  (x : string * Z) :
  In x (extractWithoutOrder scorer query choices) ->
  In (fst x) choices /\ snd x = scorer query (fst x).
Proof.
  unfold extractWithoutOrder. rewrite in_flat_map.
  intros (choice & Hin & Hx).
  destruct (0 <=? scorer query choice)%Z; [|destruct Hx].
  destruct Hx as [<-|[]]. auto.
Qed.

Lemma extractWithoutOrder_nodup (query : string) (choices : list string) :
  NoDup choices ->
  NoDup (map fst (extractWithoutOrder scorer query choices)).
Proof.
  induction 1 as [|c cs Hc Hcs IH]; simpl; [constructor|].
  destruct (0 <=? scorer query c)%Z; simpl; [|exact IH].
  constructor; [|exact IH].
  rewrite in_map_iff. intros (x & <- & Hx).
  apply extractWithoutOrder_in in Hx as [Hx _]. contradiction.
Qed.

(** With scores that are never negative the cutoff lets every choice
    through. *)
Lemma extractWithoutOrder_all (query : string) (choices : list string) :
  (forall q c, (0 <= scorer q c)%Z) ->
  extractWithoutOrder scorer query choices =
  map (fun c => (c, scorer query c)) choices.
Proof.
  intros Hpos. induction choices as [|c cs IH]; simpl; [reflexivity|].
  destruct (Z.leb_spec 0 (scorer query c)) as [_|N].
  - simpl. rewrite <- IH. reflexivity.
  - specialize (Hpos query c). lia.
Qed.

Lemma max_by_score_in (l : list (string * Z)) :
  forall best, In (max_by_score best l) (best :: l).
Proof.
  induction l as [|x l IH]; intros best; simpl; [auto|].
  destruct (snd best <? snd x)%Z.
  - right. apply IH.
  - destruct (IH best) as [E|H]; auto.
Qed.

Lemma max_by_score_ge (l : list (string * Z)) :
  forall best x,
    In x (best :: l) -> (snd x <= snd (max_by_score best l))%Z.
Proof.
  induction l as [|y l IH]; intros best x; simpl.
  - intros [<-|[]]. lia.
  - destruct (Z.ltb_spec (snd best) (snd y)) as [L|L];
      intros [<-|[<-|H]].
    + pose proof (IH y y (or_introl eq_refl)). lia.
    + apply IH. left; reflexivity.
    + apply IH. right; exact H.
    + apply IH. left; reflexivity.
    + pose proof (IH best best (or_introl eq_refl)). lia.
    + apply IH. right; exact H.
Qed.

Lemma insert_desc_perm (x : string * Z) (l : list (string * Z)) :
  Permutation (insert_desc x l) (x :: l).
Proof.
  induction l as [|y l IH]; simpl; [reflexivity|].
  destruct (snd x <? snd y)%Z; [|reflexivity].
  rewrite IH. apply perm_swap.
Qed.

Lemma insert_desc_sorted (x : string * Z) (l : list (string * Z)) :
  StronglySorted before l -> StronglySorted before (insert_desc x l).
Proof.
  induction 1 as [|y l Hl IH Hy]; simpl.
  - repeat constructor.
  - destruct (Z.ltb_spec (snd x) (snd y)) as [L|L].
    + constructor; [exact IH|].
      rewrite Forall_forall in *. intros z Hz.
      apply (Permutation_in _ (insert_desc_perm x l)) in Hz.
      destruct Hz as [<-|Hz]; [unfold before; lia | auto].
    + constructor; [constructor; auto|].
      constructor; [unfold before; lia|].
      rewrite Forall_forall in *. intros z Hz.
      specialize (Hy z Hz). unfold before in *. lia.
Qed.

Lemma sorted_desc_perm (l : list (string * Z)) :
  Permutation (sorted_desc l) l.
Proof.
  induction l as [|x l IH]; simpl; [reflexivity|].
  rewrite insert_desc_perm. constructor. exact IH.
Qed.

Lemma sorted_desc_sorted (l : list (string * Z)) :
  StronglySorted before (sorted_desc l).
Proof.
  induction l as [|x l IH]; simpl; [constructor|].
  apply insert_desc_sorted. exact IH.
Qed.

Lemma firstn_subset {A : Type} (n : nat) (l : list A) (x : A) :
  In x (firstn n l) -> In x l.
Proof.
  revert l. induction n as [|n IH]; intros l; simpl.
  - intros [].
  - destruct l as [|y l]; simpl; [intros []|].
    intros [E|H]; auto.
Qed.

Lemma firstn_sorted {A : Type} (R : A -> A -> Prop) (n : nat) (l : list A) :
  StronglySorted R l -> StronglySorted R (firstn n l).
Proof.
  revert l. induction n as [|n IH]; intros l H; simpl; [constructor|].
  destruct H as [|x l Hl Hx]; constructor; auto.
  rewrite Forall_forall in *. intros y Hy. apply Hx.
  apply (firstn_subset n l). exact Hy.
Qed.

Lemma firstn_nodup {A : Type} (n : nat) (l : list A) :
  NoDup l -> NoDup (firstn n l).
Proof.
  revert l. induction n as [|n IH]; intros l H; simpl; [constructor|].
  destruct H as [|x l Hx Hl]; constructor; auto.
  intros Hin. apply Hx. apply (firstn_subset n l). exact Hin.
Qed.

Lemma nlargest_length (n : Z) (l : list (string * Z)) :
  List.length (nlargest n l) = Nat.min (Z.to_nat n) (List.length l).
Proof.
  unfold nlargest. rewrite length_firstn.
  rewrite (Permutation_length (sorted_desc_perm l)). reflexivity.
Qed.

Lemma nlargest_in (n : Z) (l : list (string * Z)) (x : string * Z) :
  In x (nlargest n l) -> In x l.
Proof.
  unfold nlargest. intros H. apply firstn_subset in H.
  apply (Permutation_in _ (sorted_desc_perm l)). exact H.
Qed.

Lemma nlargest_sorted (n : Z) (l : list (string * Z)) :
  StronglySorted before (nlargest n l).
Proof. apply firstn_sorted. apply sorted_desc_sorted. Qed.

Lemma nlargest_nodup (n : Z) (l : list (string * Z)) :
  NoDup (map fst l) -> NoDup (map fst (nlargest n l)).
Proof.
  intros H. unfold nlargest. rewrite <- firstn_map. apply firstn_nodup.
  apply (Permutation_NoDup (l := map fst l)); [|exact H].
  apply Permutation_map. symmetry. apply sorted_desc_perm.
Qed.

Lemma nlargest_nonpositive (n : Z) (l : list (string * Z)) :
  (n <= 0)%Z -> nlargest n l = [].
Proof.
  intros H. unfold nlargest.
  replace (Z.to_nat n) with 0%nat by lia. reflexivity.
Qed.

End WithScorer.

End ProcessFacts.

(* ================================================================== *)
(** * The matcher: helper lemmas *)
(* ================================================================== *)

Module MatcherFacts.

Import ComponentMatcher.

Section WithScorer.

Variable scorer : string -> string -> Z.

(** With the candidates in hand, [match_component] is the search in the
    candidate dictionary; the early return for an empty pool agrees with
    it. *)
Lemma match_component_with (self : t) (d : detected)
  (cands : list Database.component) :
  Database.get_all_components (db self) (detected_itclass d) = Returned cands ->
  match_component scorer self d =
  match Process.extractOne scorer (detected_str d)
          (Dict.keys (candidate_dict cands)) with
  | None => Returned (None, 0%Z, New)
  | Some (match_str, score) =>
      matched_component <- Dict.item (candidate_dict cands) match_str ;;
      Returned (Some (Database.component_id matched_component),
                score, classify self score)
  end.
Proof.
  intros H. unfold match_component. rewrite H. cbn [bind].
  destruct cands; reflexivity.
Qed.

Lemma suggestions_with (self : t) (d : detected) (limit : Z)
  (cands : list Database.component) :
  Database.get_all_components (db self) (detected_itclass d) = Returned cands ->
  get_match_suggestions scorer self d limit =
  collect_suggestions (candidate_dict cands)
    (Process.extract scorer (detected_str d)
       (Dict.keys (candidate_dict cands)) limit).
Proof.
  intros H. unfold get_match_suggestions. rewrite H. cbn [bind].
  destruct cands; [|reflexivity].
  unfold Process.extract, Process.nlargest. simpl.
  destruct (Z.to_nat limit); reflexivity.
Qed.

(** A list of suggestions comes from the matches one by one. *)
Lemma collect_suggestions_inv (cdict : Dict.t Database.component)
  (matches : list (string * Z)) :
  forall res,
    collect_suggestions cdict matches = Returned res ->
    Forall2
      (fun x r => Dict.lookup cdict (fst x) = Some (component r) /\
                  match_score r = snd x)
      matches res.
Proof.
  induction matches as [|[k s] matches IH]; intros res; simpl.
  - intros E. injection E as <-. constructor.
  - unfold Dict.item. destruct (Dict.lookup cdict k) as [c|] eqn:L;
      cbn [bind]; [|discriminate].
    destruct (collect_suggestions cdict matches) as [rest|]; cbn [bind];
      [|discriminate].
    intros E. injection E as <-. constructor; auto.
Qed.

(** Matches that are keys of the dictionary all give a suggestion. *)
Lemma collect_suggestions_total (cdict : Dict.t Database.component)
  (matches : list (string * Z)) :
  (forall x, In x matches -> In (fst x) (Dict.keys cdict)) ->
  exists res, collect_suggestions cdict matches = Returned res.
Proof.
  induction matches as [|[k s] matches IH]; intros H; simpl.
  - eauto.
  - destruct (proj1 (DictFacts.lookup_in_keys cdict k)) as [c L].
    { apply (H (k, s)). left; reflexivity. }
    unfold Dict.item. rewrite L. cbn [bind].
    destruct IH as [rest ->]; [intros x Hx; apply H; right; exact Hx|].
    cbn [bind]. eauto.
Qed.

Lemma Forall2_scores (cdict : Dict.t Database.component)
  (matches : list (string * Z)) (res : list suggestion) :
  Forall2
    (fun x r => Dict.lookup cdict (fst x) = Some (component r) /\
                match_score r = snd x)
    matches res ->
  map match_score res = map snd matches /\
  List.length res = List.length matches.
Proof.
  induction 1 as [|x r matches res [_ E] _ [IH1 IH2]]; simpl; [auto|].
  rewrite E, IH1, IH2. auto.
Qed.

Lemma Forall2_strings (cands : list Database.component)
  (matches : list (string * Z)) (res : list suggestion) :
  Forall2
    (fun x r => Dict.lookup (candidate_dict cands) (fst x)
                = Some (component r) /\ match_score r = snd x)
    matches res ->
  map (fun r => candidate_str (component r)) res = map fst matches.
Proof.
  induction 1 as [|x r matches res [L _] _ IH]; simpl; [auto|].
  apply DictFacts.candidate_dict_last in L as (_ & _ & _ & E & _).
  rewrite E, IH. reflexivity.
Qed.

Lemma Forall2_right {A B : Type} (R : A -> B -> Prop) (l : list A)
  (l' : list B) (y : B) :
  Forall2 R l l' -> In y l' -> exists x, In x l /\ R x y.
Proof.
  induction 1 as [|a b l l' Hab _ IH]; simpl; [intros []|].
  intros [<-|Hy]; [eauto|].
  destruct (IH Hy) as (x & Hx & Hr). eauto.
Qed.

Lemma sorted_scores (l : list (string * Z)) :
  StronglySorted Process.before l -> StronglySorted Z.ge (map snd l).
Proof.
  induction 1 as [|x l Hl IH Hx]; simpl; constructor; auto.
  rewrite Forall_forall in *. intros s Hs.
  apply in_map_iff in Hs as (y & <- & Hy). apply (Hx y Hy).
Qed.

(** What [match_component] returns with an identifier comes from a row
    that is the last of the pool to read as it does. *)
Lemma match_component_some (self : t) (d : detected)
  (cands : list Database.component) (cid s : Z) (ty : match_type) :
  Database.get_all_components (db self) (detected_itclass d) = Returned cands ->
  match_component scorer self d = Returned (Some cid, s, ty) ->
  ty = classify self s /\
  exists before c after,
    cands = (before ++ c :: after)%list /\
    Database.component_id c = cid /\
    s = scorer (detected_str d) (candidate_str c) /\
    forall c', In c' after -> candidate_str c' <> candidate_str c.
Proof.
  intros H. rewrite (match_component_with self d cands H).
  unfold Process.extractOne.
  destruct (Process.extractWithoutOrder _ _ _) as [|x l] eqn:E;
    [discriminate|].
  pose proof (ProcessFacts.max_by_score_in l x) as Hin.
  rewrite <- E in Hin.
  apply ProcessFacts.extractWithoutOrder_in in Hin as [_ Hs].
  destruct (Process.max_by_score x l) as [k sc]. simpl in Hs.
  unfold Dict.item.
  destruct (Dict.lookup (candidate_dict cands) k) as [c|] eqn:L;
    cbn [bind]; [|discriminate].
  intros R. injection R as <- <- <-. split; [reflexivity|].
  apply DictFacts.candidate_dict_last in L
    as (before & after & -> & Hk & Hafter).
  exists before, c, after. repeat split; auto. congruence.
Qed.

End WithScorer.

End MatcherFacts.

(* ================================================================== *)
(** * The matcher against the specification *)
(* ================================================================== *)

Module MatcherProps.

Import ComponentMatcher.

(** C1.  Whenever [match_component] returns the score [s] of a best
    candidate, the decision is [Auto] exactly when [s] reaches the auto
    threshold, [Review] exactly when [s] reaches the review threshold and
    stays below the auto threshold, and [New] otherwise.  A matcher made
    by [init] has the thresholds 85 and 70, and then this holds of every
    result, the one for an empty pool included. *)
Theorem decision_by_thresholds (scorer : string -> string -> Z) (self : t)
  (d : detected) :
  (forall cid s ty,
      match_component scorer self d = Returned (Some cid, s, ty) ->
      (ty = Auto <-> (auto_threshold self <= s)%Z) /\
      (ty = Review <->
       (review_threshold self <= s /\ s < auto_threshold self)%Z) /\
      (ty = New <->
       ~ (auto_threshold self <= s)%Z /\
       ~ (review_threshold self <= s /\ s < auto_threshold self)%Z)) /\
  (forall database cid s ty,
      match_component scorer (init database) d = Returned (cid, s, ty) ->
      (ty = Auto <-> (85 <= s)%Z) /\
      (ty = Review <-> (70 <= s /\ s < 85)%Z) /\
      (ty = New <-> (s < 70)%Z)).
Proof.
  assert (C : forall m s,
             (classify m s = Auto <-> (auto_threshold m <= s)%Z) /\
             (classify m s = Review <->
              (review_threshold m <= s /\ s < auto_threshold m)%Z) /\
             (classify m s = New <->
              ~ (auto_threshold m <= s)%Z /\
              ~ (review_threshold m <= s /\ s < auto_threshold m)%Z)).
  { intros m s. unfold classify.
    destruct (Z.leb_spec (auto_threshold m) s);
      destruct (Z.leb_spec (review_threshold m) s);
      repeat split; intros; try discriminate; try lia; try reflexivity. }
  split.
  - intros cid s ty H.
    destruct (Database.get_all_components (db self) (detected_itclass d))
      as [cands|e] eqn:G.
    + destruct (MatcherFacts.match_component_some scorer self d cands
                  cid s ty G H) as [-> _]. apply C.
    + unfold match_component in H. rewrite G in H. discriminate.
  - intros database cid s ty H.
    assert (K : ty = classify (init database) s).
    { unfold match_component in H.
      destruct (Database.get_all_components _ _) as [cands|e];
        cbn [bind] in H; [|discriminate].
      destruct cands as [|c cs]; [injection H as <- <- <-; reflexivity|].
      destruct (Process.extractOne _ _ _) as [[k sc]|];
        [|injection H as <- <- <-; reflexivity].
      destruct (Dict.item _ _); cbn [bind] in H; [|discriminate].
      injection H as <- <- <-. reflexivity. }
    subst ty. destruct (C (init database) s) as (CA & CR & CN).
    unfold init in *; cbn [auto_threshold review_threshold] in *.
    unfold EstimatorConfig.AUTO_MATCH_THRESHOLD,
      EstimatorConfig.REVIEW_THRESHOLD in *.
    split; [exact CA|]. split; [exact CR|].
    rewrite CN. lia.
Qed.

Lemma decision_by_thresholds_witness :
  (Auto = Auto <-> (85 <= 100)%Z) /\
  (Auto = Review <-> (70 <= 100 /\ 100 < 85)%Z) /\
  (Auto = New <-> (100 < 70)%Z).
Proof.
  apply (proj2 (decision_by_thresholds Sample.scorer Sample.matcher
                  Sample.breaker) Sample.library (Some 12%Z)).
  reflexivity.
Defined.

(** C2.  When the candidate provider returns no candidate for the class
    of the item, [match_component] returns no identifier, the score 0 and
    the decision [New]; it does not raise. *)
Theorem empty_pool_is_new (scorer : string -> string -> Z) (self : t)
  (d : detected) :
  Database.get_all_components (db self) (detected_itclass d) = Returned [] ->
  match_component scorer self d = Returned (None, 0%Z, New).
Proof.
  intros H. unfold match_component. rewrite H. reflexivity.
Qed.

Lemma empty_pool_is_new_witness :
  match_component Sample.scorer Sample.matcher Sample.timer
  = Returned (None, 0%Z, New).
Proof.
  apply (empty_pool_is_new Sample.scorer Sample.matcher Sample.timer).
  reflexivity.
Defined.

(** A relay looked up among contactors: the pool holds one row, the
    decision is [New], and the identifier of that row is returned. *)
Lemma new_with_identifier :
  Database.get_all_components (db Sample.matcher)
    (detected_itclass Sample.relay)
  = Returned [Sample.row 7 "Contactor 40A" "CONTACTOR" "ABB" "AF40"] /\
  match_component Sample.scorer Sample.matcher Sample.relay
  = Returned (Some 7%Z, 0%Z, New).
Proof. split; reflexivity. Qed.

(** C3, in the form the code satisfies.
    With a pool that is not empty and a scorer that is
    never negative, [match_component] returns the identifier of a row of
    the pool whose score no row exceeds, whatever the decision: also with
    the decision [New] the identifier is present. *)
Theorem identifier_of_best (scorer : string -> string -> Z) (self : t)
  (d : detected) (cands : list Database.component) :
  (forall q c, (0 <= scorer q c)%Z) ->
  Database.get_all_components (db self) (detected_itclass d)
  = Returned cands ->
  cands <> [] ->
  exists c,
    In c cands /\
    match_component scorer self d =
      Returned (Some (Database.component_id c),
                scorer (detected_str d) (candidate_str c),
                classify self (scorer (detected_str d) (candidate_str c))) /\
    forall c', In c' cands ->
      (scorer (detected_str d) (candidate_str c')
       <= scorer (detected_str d) (candidate_str c))%Z.
Proof.
  intros Hpos G Hne.
  rewrite (MatcherFacts.match_component_with scorer self d cands G).
  unfold Process.extractOne.
  rewrite (ProcessFacts.extractWithoutOrder_all scorer _ _ Hpos).
  set (q := detected_str d). set (keys := Dict.keys (candidate_dict cands)).
  set (pairs := map (fun c => (c, scorer q c)) keys).
  assert (Hkeys : forall c', In c' cands ->
                             In (candidate_str c', scorer q (candidate_str c'))
                                pairs).
  { intros c' Hc'. unfold pairs.
    apply (in_map (fun c => (c, scorer q c))).
    apply DictFacts.candidate_dict_keys_in. apply in_map. exact Hc'. }
  destruct pairs as [|x l] eqn:E.
  - destruct cands as [|c0 cs]; [congruence|].
    destruct (Hkeys c0 (or_introl eq_refl)).
  - pose proof (ProcessFacts.max_by_score_in l x) as Hin.
    pose proof (ProcessFacts.max_by_score_ge l x) as Hge.
    destruct (Process.max_by_score x l) as [k sc].
    rewrite <- E in Hin. unfold pairs in Hin.
    apply in_map_iff in Hin as (k' & Ek & Hk). injection Ek as -> <-.
    destruct (proj1 (DictFacts.lookup_in_keys _ _) Hk) as [c L].
    unfold Dict.item. rewrite L. cbn [bind].
    apply DictFacts.candidate_dict_last in L
      as (before & after & Ec & <- & _).
    exists c. split; [rewrite Ec; apply in_elt|].
    split; [reflexivity|].
    intros c' Hc'. apply (Hge (candidate_str c', scorer q (candidate_str c'))).
    apply Hkeys. exact Hc'.
Qed.

Lemma identifier_of_best_witness :
  exists c,
    In c [Sample.row 7 "Contactor 40A" "CONTACTOR" "ABB" "AF40"] /\
    match_component Sample.scorer Sample.matcher Sample.relay =
      Returned (Some (Database.component_id c),
                Sample.scorer (detected_str Sample.relay) (candidate_str c),
                classify Sample.matcher
                  (Sample.scorer (detected_str Sample.relay)
                     (candidate_str c))) /\
    forall c', In c' [Sample.row 7 "Contactor 40A" "CONTACTOR" "ABB" "AF40"] ->
      (Sample.scorer (detected_str Sample.relay) (candidate_str c')
       <= Sample.scorer (detected_str Sample.relay) (candidate_str c))%Z.
Proof.
  apply (identifier_of_best Sample.scorer Sample.matcher Sample.relay).
  - intros q c. unfold Sample.scorer. destruct (String.eqb q c); lia.
  - reflexivity.
  - discriminate.
Defined.

(** Two rows of the class MCB read alike: five suggestions are asked for,
    two candidates are retrieved, one suggestion is returned. *)
Lemma fewer_suggestions_than_rows :
  Database.get_all_components (db Sample.matcher)
    (detected_itclass Sample.breaker)
  = Returned [Sample.row 11 "MCB 63A" "MCB" "Schneider" "C60N";
              Sample.row 12 "MCB 63A" "MCB" "Schneider" "C60N"] /\
  get_match_suggestions Sample.scorer Sample.matcher Sample.breaker 5
  = Returned [ {| component :=
                    Sample.row 12 "MCB 63A" "MCB" "Schneider" "C60N";
                  match_score := 100 |} ].
Proof. split; reflexivity. Qed.

(** C7, in the form the code satisfies.
    With a scorer that is never negative and a positive
    [limit], [get_match_suggestions] returns a list sorted by
    non-increasing score whose length is the smaller of [limit] and the
    number of distinct search strings among the candidates retrieved for
    the class of the item. *)
Theorem suggestions_length_sorted (scorer : string -> string -> Z)
  (self : t) (d : detected) (limit : Z) (cands : list Database.component) :
  (forall q c, (0 <= scorer q c)%Z) ->
  (0 < limit)%Z ->
  Database.get_all_components (db self) (detected_itclass d)
  = Returned cands ->
  exists sugg,
    get_match_suggestions scorer self d limit = Returned sugg /\
    Z.of_nat (List.length sugg) =
      Z.min limit
        (Z.of_nat (List.length
                     (nodup string_dec (map candidate_str cands)))) /\
    StronglySorted Z.ge (map match_score sugg).
Proof.
  intros Hpos Hlimit G.
  rewrite (MatcherFacts.suggestions_with scorer self d limit cands G).
  set (cdict := candidate_dict cands).
  set (matches := Process.extract scorer (detected_str d)
                    (Dict.keys cdict) limit).
  destruct (MatcherFacts.collect_suggestions_total cdict matches)
    as [sugg E].
  { intros x Hx. apply ProcessFacts.nlargest_in in Hx.
    apply ProcessFacts.extractWithoutOrder_in in Hx as [Hx _]. exact Hx. }
  exists sugg. split; [exact E|].
  apply MatcherFacts.collect_suggestions_inv in E.
  apply MatcherFacts.Forall2_scores in E as [Escore Elen].
  split.
  - rewrite Elen. unfold matches, Process.extract.
    rewrite ProcessFacts.nlargest_length.
    rewrite (ProcessFacts.extractWithoutOrder_all scorer _ _ Hpos).
    rewrite length_map. unfold cdict.
    rewrite DictFacts.candidate_dict_keys_length. lia.
  - rewrite Escore. apply MatcherFacts.sorted_scores.
    apply ProcessFacts.nlargest_sorted.
Qed.

Lemma suggestions_length_sorted_witness :
  exists sugg,
    get_match_suggestions Sample.scorer Sample.matcher Sample.breaker 5
    = Returned sugg /\
    Z.of_nat (List.length sugg) =
      Z.min 5
        (Z.of_nat
           (List.length
              (nodup string_dec
                 (map candidate_str
                    [Sample.row 11 "MCB 63A" "MCB" "Schneider" "C60N";
                     Sample.row 12 "MCB 63A" "MCB" "Schneider" "C60N"])))) /\
    StronglySorted Z.ge (map match_score sugg).
Proof.
  apply (suggestions_length_sorted Sample.scorer Sample.matcher
           Sample.breaker 5).
  - intros q c. unfold Sample.scorer. destruct (String.eqb q c); lia.
  - lia.
  - reflexivity.
Defined.

(** Suggestions asked for with the limits 0 and -3: the calls return, with
    the empty list. *)
Lemma nonpositive_limit_returns :
  get_match_suggestions Sample.scorer Sample.matcher Sample.breaker 0
  = Returned [] /\
  get_match_suggestions Sample.scorer Sample.matcher Sample.breaker (-3)
  = Returned [].
Proof. split; reflexivity. Qed.

(** C9, in the form the code satisfies.
    For a [limit] that is not positive
    [get_match_suggestions] checks nothing: it returns the empty list
    whenever the candidates are retrieved, and raises only what the
    retrieval raises. *)
Theorem nonpositive_limit_empty (scorer : string -> string -> Z) (self : t)
  (d : detected) (limit : Z) :
  (limit <= 0)%Z ->
  get_match_suggestions scorer self d limit =
  (_ <- Database.get_all_components (db self) (detected_itclass d) ;;
   Returned []).
Proof.
  intros H.
  destruct (Database.get_all_components (db self) (detected_itclass d))
    as [cands|e] eqn:G.
  - rewrite (MatcherFacts.suggestions_with scorer self d limit cands G).
    unfold Process.extract.
    rewrite (ProcessFacts.nlargest_nonpositive limit _ H). reflexivity.
  - unfold get_match_suggestions. rewrite G. reflexivity.
Qed.

Lemma nonpositive_limit_empty_witness :
  get_match_suggestions Sample.scorer Sample.matcher Sample.relay (-1) =
  (_ <- Database.get_all_components (db Sample.matcher)
          (detected_itclass Sample.relay) ;;
   Returned []).
Proof.
  apply (nonpositive_limit_empty Sample.scorer Sample.matcher Sample.relay).
  lia.
Defined.

(** C10.  Of the candidates that read alike only the last retrieved can
    be reached: the row whose identifier [match_component] returns, and
    every row [get_match_suggestions] lists, is followed in the pool by no
    row with the same search string; no two suggestions have the same
    search string, and there are at most as many suggestions as distinct
    search strings. *)
Theorem last_of_duplicates (scorer : string -> string -> Z) (self : t)
  (d : detected) (cands : list Database.component) :
  Database.get_all_components (db self) (detected_itclass d)
  = Returned cands ->
  (forall cid s ty,
      match_component scorer self d = Returned (Some cid, s, ty) ->
      exists before c after,
        cands = (before ++ c :: after)%list /\
        Database.component_id c = cid /\
        forall c', In c' after -> candidate_str c' <> candidate_str c) /\
  (forall limit sugg,
      get_match_suggestions scorer self d limit = Returned sugg ->
      (forall r, In r sugg ->
         exists before after,
           cands = (before ++ component r :: after)%list /\
           forall c', In c' after ->
                      candidate_str c' <> candidate_str (component r)) /\
      NoDup (map (fun r => candidate_str (component r)) sugg) /\
      (List.length sugg
       <= List.length (nodup string_dec (map candidate_str cands)))%nat).
Proof.
  intros G. split.
  - intros cid s ty H.
    destruct (MatcherFacts.match_component_some scorer self d cands
                cid s ty G H) as (_ & before & c & after & E & I & _ & L).
    exists before, c, after. auto.
  - intros limit sugg H.
    rewrite (MatcherFacts.suggestions_with scorer self d limit cands G) in H.
    apply MatcherFacts.collect_suggestions_inv in H.
    pose proof (MatcherFacts.Forall2_strings cands _ _ H) as Hstr.
    pose proof (MatcherFacts.Forall2_scores _ _ _ H) as [_ Hlen].
    assert (Hnodup : NoDup (map fst
              (Process.extract scorer (detected_str d)
                 (Dict.keys (candidate_dict cands)) limit))).
    { apply ProcessFacts.nlargest_nodup.
      apply ProcessFacts.extractWithoutOrder_nodup.
      apply DictFacts.candidate_dict_keys_nodup. }
    split; [|split].
    + intros r Hr.
      destruct (MatcherFacts.Forall2_right _ _ _ r H Hr) as (x & _ & L & _).
      apply DictFacts.candidate_dict_last in L
        as (before & after & E & _ & Hafter).
      exists before, after. auto.
    + rewrite Hstr. exact Hnodup.
    + rewrite <- DictFacts.candidate_dict_keys_length.
      rewrite <- (length_map (fun r => candidate_str (component r))), Hstr.
      apply NoDup_incl_length; [exact Hnodup|].
      intros k Hk. apply in_map_iff in Hk as (x & <- & Hx).
      apply ProcessFacts.nlargest_in in Hx.
      apply ProcessFacts.extractWithoutOrder_in in Hx as [Hx _]. exact Hx.
Qed.

Lemma last_of_duplicates_witness :
  exists before c after,
    [Sample.row 11 "MCB 63A" "MCB" "Schneider" "C60N";
     Sample.row 12 "MCB 63A" "MCB" "Schneider" "C60N"]
    = (before ++ c :: after)%list /\
    Database.component_id c = 12%Z /\
    forall c', In c' after -> candidate_str c' <> candidate_str c.
Proof.
  apply (proj1 (last_of_duplicates Sample.scorer Sample.matcher
                  Sample.breaker _ eq_refl) 12%Z 100%Z Auto).
  reflexivity.
Defined.

End MatcherProps.

(* ================================================================== *)
(** * Further facts about strings *)
(* ================================================================== *)

Module PyTextFacts.

Lemma contains_char_cons (c x : ascii) (s : string) :
  Py.contains (String c "") (String x s) =
  Ascii.eqb c x || Py.contains (String c "") s.
Proof.
  simpl. destruct (ascii_dec c x) as [->|N].
  - rewrite Ascii.eqb_refl. destruct s; reflexivity.
  - destruct (Ascii.eqb_spec c x); [contradiction | reflexivity].
Qed.

Lemma contains_char_app (c : ascii) (a b : string) :
  Py.contains (String c "") (a ++ b) =
  Py.contains (String c "") a || Py.contains (String c "") b.
Proof.
  induction a as [|x a IH].
  - simpl. destruct b; reflexivity.
  - change (String x a ++ b) with (String x (a ++ b)).
    rewrite !contains_char_cons, IH, orb_assoc. reflexivity.
Qed.

(** No piece of a split contains the separator. *)
Lemma split_pieces (sep : ascii) (s : string) :
  Forall (fun p => Py.contains (String sep "") p = false) (Py.split sep s).
Proof.
  induction s as [|c s IH]; simpl.
  - repeat constructor.
  - destruct (Ascii.eqb_spec c sep) as [->|N].
    + constructor; [reflexivity | exact IH].
    + revert IH. destruct (Py.split sep s) as [|p ps]; intros IH.
      * constructor; [|constructor]. rewrite contains_char_cons.
        destruct (Ascii.eqb_spec sep c); [congruence | reflexivity].
      * inversion IH as [|? ? Hp Hps]; subst.
        constructor; [|exact Hps]. rewrite contains_char_cons.
        destruct (Ascii.eqb_spec sep c); [congruence | exact Hp].
Qed.

Lemma join_no_char (c : ascii) (sep : string) (l : list string) :
  Py.contains (String c "") sep = false ->
  Forall (fun p => Py.contains (String c "") p = false) l ->
  Py.contains (String c "") (Py.join sep l) = false.
Proof.
  intros Hsep. induction 1 as [|p l Hp Hl IH]; [reflexivity|].
  destruct l as [|q l]; [exact Hp|].
  change (Py.join sep (p :: q :: l)) with (p ++ sep ++ Py.join sep (q :: l)).
  rewrite !contains_char_app, Hp, Hsep, IH. reflexivity.
Qed.

(** The words [split_ws] gives are not empty and hold no white space. *)
Lemma split_ws_words (s : string) :
  Forall (fun w => w <> "" /\ PyText.no_space w = true) (PyText.split_ws s).
Proof.
  induction s as [|c s IH]; [constructor|].
  cbn [PyText.split_ws]. destruct (Py.isspace c) eqn:Ec; [exact IH|].
  destruct s as [|c' s'].
  - constructor; [|constructor]. split; [discriminate|].
    simpl. rewrite Ec. reflexivity.
  - destruct (Py.isspace c') eqn:Ec'.
    + constructor; [|exact IH]. split; [discriminate|].
      simpl. rewrite Ec. reflexivity.
    + revert IH. destruct (PyText.split_ws (String c' s')) as [|w ws];
        intros IH.
      * constructor; [|constructor]. split; [discriminate|].
        simpl. rewrite Ec. reflexivity.
      * inversion IH as [|? ? [_ Hw] Hws]; subst.
        constructor; [|exact Hws]. split; [discriminate|].
        simpl. rewrite Ec, Hw. reflexivity.
Qed.

Lemma last_in {A : Type} (l : list A) (d : A) :
  l <> [] -> exists front, l = (front ++ [List.last l d])%list.
Proof.
  intros H. exists (removelast l). apply app_removelast_last. exact H.
Qed.

End PyTextFacts.

(* ================================================================== *)
(** * Properties of the import parsing *)
(* ================================================================== *)

Module ImportProps.

Lemma scan_cases (mfgs : list string) (itemname : string)
  (parts : list string) :
  (existsb (fun mfg => Py.contains mfg itemname) mfgs = false /\
   ErpItem.scan mfgs itemname parts = ("Unknown", "Unknown")) \/
  (exists before mfg after,
      mfgs = (before ++ mfg :: after)%list /\
      Py.contains mfg itemname = true /\
      Forall (fun m => Py.contains m itemname = false) before /\
      ErpItem.scan mfgs itemname parts =
        (mfg, if (1 <? List.length parts)%nat
              then List.last parts "Unknown" else "Unknown")).
Proof.
  induction mfgs as [|m mfgs IH]; simpl.
  - left. auto.
  - destruct (Py.contains m itemname) eqn:E.
    + right. exists [], m, mfgs. repeat split; auto.
    + destruct IH as [[H1 H2] | (before & mfg & after & -> & H1 & H2 & H3)].
      * left. auto.
      * right. exists (m :: before), mfg, after. repeat split; auto.
Qed.

(** X1.  The fields [import_from_erp] derives from an item name.  The
    class is never empty.  The manufacturer is the first entry of the
    table, in table order, that occurs in the item name with the same
    letter case, and [Unknown] with the model number [Unknown] when none
    occurs.  The model number is [Unknown] or the last of at least two
    white-space separated words of the item name, hence neither empty nor
    holding white space. *)
Theorem erp_item_fields (row_itemname : string) (row_itclass : option string) :
  let f := ErpItem.parse_row row_itemname row_itclass in
  ErpItem.itclass f <> "" /\
  ((existsb (fun mfg => Py.contains mfg row_itemname)
      ErpItem.known_manufacturers = false /\
    ErpItem.manufacturer f = "Unknown" /\ ErpItem.model_number f = "Unknown")
   \/
   (exists before after,
       ErpItem.known_manufacturers
       = (before ++ ErpItem.manufacturer f :: after)%list /\
       Py.contains (ErpItem.manufacturer f) row_itemname = true /\
       Forall (fun m => Py.contains m row_itemname = false) before)) /\
  (ErpItem.model_number f = "Unknown" \/
   (exists front,
       front <> [] /\
       PyText.split_ws row_itemname
       = (front ++ [ErpItem.model_number f])%list /\
       ErpItem.model_number f <> "" /\
       PyText.no_space (ErpItem.model_number f) = true)).
Proof.
  cbv zeta. unfold ErpItem.parse_row.
  cbn [ErpItem.itclass ErpItem.manufacturer ErpItem.model_number].
  split; [|split].
  - unfold PyText.or_else.
    destruct row_itclass as [[|c s]|]; simpl; discriminate.
  - destruct (scan_cases ErpItem.known_manufacturers row_itemname
                (PyText.split_ws row_itemname))
      as [[H1 ->] | (before & mfg & after & E & H1 & H2 & ->)].
    + left. auto.
    + right. exists before, after. auto.
  - destruct (scan_cases ErpItem.known_manufacturers row_itemname
                (PyText.split_ws row_itemname))
      as [[H1 ->] | (before & mfg & after & E & H1 & H2 & ->)];
      [left; reflexivity|].
    cbn [snd]. pose proof (PyTextFacts.split_ws_words row_itemname) as W.
    destruct (PyText.split_ws row_itemname) as [|w [|w' ws]] eqn:P;
      [left; reflexivity | left; reflexivity | right].
    change (1 <? List.length (w :: w' :: ws))%nat with true. cbv iota.
    destruct (PyTextFacts.last_in (w :: w' :: ws) "Unknown") as [front F];
      [discriminate|].
    set (n := List.last (w :: w' :: ws) "Unknown") in *.
    exists front. split.
    { destruct front; [|discriminate]. simpl in F.
      destruct ws; discriminate. }
    split; [exact F|].
    rewrite Forall_forall in W. apply W. rewrite F.
    apply in_or_app. right. left. reflexivity.
Qed.

(** X2.  When several parts of a stock code contain an entry of the
    manufacturer table, the last of them decides the manufacturer: the
    [break] ends the scan of one part, not the scan of the parts. *)
Theorem last_part_decides (stkcode : string) (before after : list string)
  (part : string) :
  Py.split "-" stkcode = (before ++ part :: after)%list ->
  Token.names_manufacturer part = true ->
  existsb Token.names_manufacturer after = false ->
  Stock.manufacturer (Stock.parse_stkcode stkcode) = Token.resolve part.
Proof.
  intros E Hp Ha. cbn [Stock.parse_stkcode Stock.manufacturer].
  rewrite StockFacts.extract_manufacturer_find, E, rev_app_distr.
  cbn [rev]. rewrite <- app_assoc, StockFacts.find_app.
  rewrite StockFacts.find_none_existsb
    by (rewrite StockFacts.existsb_rev; exact Ha).
  cbn [app find]. rewrite Hp. reflexivity.
Qed.

Lemma last_part_decides_witness :
  Stock.manufacturer (Stock.parse_stkcode "MCB-SCH-63A-ABB")
  = Token.resolve "ABB".
Proof.
  apply (last_part_decides "MCB-SCH-63A-ABB" ["MCB"; "SCH"; "63A"] [] "ABB");
    reflexivity.
Defined.

Lemma resolve_no_hyphen (part : string) :
  Py.contains "-" part = false -> Py.contains "-" (Token.resolve part) = false.
Proof.
  intros H. unfold Token.resolve.
  destruct (Token.first_known part) as [mfg|]; [|reflexivity].
  unfold Stock.manufacturer_for.
  repeat match goal with
         | |- context [String.eqb ?a ?b] => destruct (String.eqb a b)
         end; solve [reflexivity | exact H].
Qed.

(** X3.  None of the class, the manufacturer and the rating derived from
    a stock code contains a hyphen. *)
Theorem stock_fields_without_hyphen (stkcode : string) :
  let f := Stock.parse_stkcode stkcode in
  Py.contains "-" (Stock.itclass f) = false /\
  Py.contains "-" (Stock.manufacturer f) = false /\
  Py.contains "-" (Stock.rating f) = false.
Proof.
  cbv zeta.
  cbn [Stock.parse_stkcode Stock.itclass Stock.manufacturer Stock.rating].
  pose proof (PyTextFacts.split_pieces "-" stkcode) as P.
  rewrite Forall_forall in P. split; [|split].
  - destruct (Py.split "-" stkcode) as [|p ps] eqn:E.
    + destruct (PyFacts.split_not_nil "-" stkcode E).
    + apply P. left. reflexivity.
  - rewrite StockFacts.extract_manufacturer_find.
    destruct (find _ _) as [part|] eqn:F; [|reflexivity].
    apply find_some in F as [Hin _]. rewrite <- in_rev in Hin.
    apply resolve_no_hyphen. apply P. exact Hin.
  - rewrite StockFacts.join_ratings_join, StockFacts.collect_ratings_filter.
    apply PyTextFacts.join_no_char; [reflexivity|].
    rewrite Forall_forall. intros p Hp. apply filter_In in Hp as [Hp _].
    apply P. exact Hp.
Qed.

End ImportProps.

(* ================================================================== *)
(** * Properties of the statistics, the exact lookup and the status *)
(* ================================================================== *)

Module LookupProps.

Import MatcherBatch.

Lemma tally_invariant (results : list result) :
  forall (st : statistics) (ts : Z),
    let acc := tally results (st, ts) in
    total (fst acc) = total st /\
    avg_confidence (fst acc) = avg_confidence st /\
    auto_matched (fst acc)
    = (auto_matched st + count_of ComponentMatcher.Auto results)%Z /\
    needs_review (fst acc)
    = (needs_review st + count_of ComponentMatcher.Review results)%Z /\
    new_items (fst acc)
    = (new_items st + count_of ComponentMatcher.New results)%Z /\
    snd acc = (ts + score_sum results)%Z.
Proof.
  unfold tally, count_of, score_sum.
  induction results as [|r results IH]; intros st ts; cbn [fold_left].
  - simpl. repeat split; lia.
  - specialize (IH (count st (match_type r)) (ts + match_score r)%Z).
    cbn [fst snd] in *. cbv zeta in IH.
    destruct IH as (I1 & I2 & I3 & I4 & I5 & I6).
    rewrite I1, I2, I3, I4, I5, I6. cbn [map fold_right filter].
    destruct (match_type r); cbn [count total avg_confidence auto_matched
      needs_review new_items List.length]; repeat split; lia.
Qed.

(** X4.  [get_match_statistics] counts every result once: [total] is the
    number of results, each of the three counters is the number of results
    with that decision, and the three counters add up to [total]. *)
Theorem statistics_partition (results : list result) :
  let stats := get_match_statistics results in
  total stats = Z.of_nat (List.length results) /\
  auto_matched stats = count_of ComponentMatcher.Auto results /\
  needs_review stats = count_of ComponentMatcher.Review results /\
  new_items stats = count_of ComponentMatcher.New results /\
  (auto_matched stats + needs_review stats + new_items stats)%Z
  = total stats.
Proof.
  cbv zeta. unfold get_match_statistics.
  set (st0 := {| total := Z.of_nat (List.length results);
                 auto_matched := 0; needs_review := 0; new_items := 0;
                 avg_confidence := Int 0 |}).
  destruct (tally_invariant results st0 0%Z) as (I1 & I2 & I3 & I4 & I5 & I6).
  assert (S : (count_of ComponentMatcher.Auto results
               + count_of ComponentMatcher.Review results
               + count_of ComponentMatcher.New results)%Z
              = Z.of_nat (List.length results)).
  { unfold count_of. clear.
    induction results as [|r results IH]; [reflexivity|].
    cbn [filter]. destruct (match_type r); cbn [List.length]; lia. }
  destruct (0 <? Z.of_nat (List.length results))%Z;
    cbn [total auto_matched needs_review new_items];
    rewrite ?I1, ?I3, ?I4, ?I5; subst st0;
    cbn [total auto_matched needs_review new_items];
    repeat split; lia.
Qed.



(** X6.  The status [update_detection_match] stores for a score agrees
    with the decision of a matcher made by [init] for that score: matched
    for [Auto], review for [Review], pending for [New]. *)
Theorem status_agrees_with_decision (database : Database.t) (score : Z) :
  Detection.match_status score =
  match ComponentMatcher.classify (ComponentMatcher.init database) score with
  | ComponentMatcher.Auto => "matched"
  | ComponentMatcher.Review => "review"
  | ComponentMatcher.New => "pending"
  end.
Proof.
  unfold Detection.match_status, ComponentMatcher.classify,
    ComponentMatcher.init. cbn [ComponentMatcher.auto_threshold
    ComponentMatcher.review_threshold].
  unfold EstimatorConfig.AUTO_MATCH_THRESHOLD,
    EstimatorConfig.REVIEW_THRESHOLD.
  destruct (85 <=? score)%Z; [reflexivity|].
  destruct (70 <=? score)%Z; reflexivity.
Qed.

End LookupProps.

(* ================================================================== *)
(** * Properties of the exact lookup *)
(* ================================================================== *)

Module ExactProps.

Import MatcherBatch.

(** A row that is neither an exact match nor broken is passed over. *)
Lemma first_exact_skip (manufacturer model_number : string)
  (c : Database.component) (rest : list Database.component) :
  is_exact manufacturer model_number c = false ->
  is_broken manufacturer c = false ->
  first_exact manufacturer model_number (c :: rest)
  = first_exact manufacturer model_number rest.
Proof.
  unfold is_exact, is_broken. cbn [first_exact].
  destruct (Database.manufacturer c) as [m|]; [|discriminate].
  cbn [PyText.lower_of bind].
  destruct (String.eqb (PyText.lower m) (PyText.lower manufacturer)).
  - destruct (Database.model_number c) as [n|]; [|discriminate].
    cbn [PyText.lower_of bind andb]. intros -> _. reflexivity.
  - reflexivity.
Qed.

Lemma first_exact_hit (manufacturer model_number : string)
  (c : Database.component) (rest : list Database.component) :
  is_exact manufacturer model_number c = true ->
  first_exact manufacturer model_number (c :: rest) = Returned (Some c).
Proof.
  unfold is_exact. cbn [first_exact].
  destruct (Database.manufacturer c) as [m|]; [|discriminate].
  destruct (Database.model_number c) as [n|]; [|discriminate].
  cbn [PyText.lower_of bind]. intros H.
  apply andb_prop in H as [-> ->]. reflexivity.
Qed.

Lemma first_exact_broken (manufacturer model_number : string)
  (c : Database.component) (rest : list Database.component) :
  is_broken manufacturer c = true ->
  first_exact manufacturer model_number (c :: rest) = Raised "AttributeError".
Proof.
  unfold is_broken. cbn [first_exact].
  destruct (Database.manufacturer c) as [m|]; [|reflexivity].
  destruct (Database.model_number c) as [n|]; [discriminate|].
  cbn [PyText.lower_of bind]. intros ->. reflexivity.
Qed.

Lemma exact_not_broken (manufacturer model_number : string)
  (c : Database.component) :
  is_exact manufacturer model_number c = true ->
  is_broken manufacturer c = false.
Proof.
  unfold is_exact, is_broken.
  destruct (Database.manufacturer c), (Database.model_number c);
    auto; discriminate.
Qed.

(** The three ways the scan of the rows ends. *)
Lemma first_exact_cases (manufacturer model_number : string)
  (components : list Database.component) :
  (first_exact manufacturer model_number components = Returned None /\
   Forall (fun r => is_exact manufacturer model_number r = false /\
                    is_broken manufacturer r = false) components) \/
  (exists before c after,
      components = (before ++ c :: after)%list /\
      Forall (fun r => is_exact manufacturer model_number r = false /\
                       is_broken manufacturer r = false) before /\
      ((is_exact manufacturer model_number c = true /\
        first_exact manufacturer model_number components
        = Returned (Some c)) \/
       (is_broken manufacturer c = true /\
        first_exact manufacturer model_number components
        = Raised "AttributeError"))).
Proof.
  induction components as [|c rest IH].
  - left. split; [reflexivity | constructor].
  - destruct (is_exact manufacturer model_number c) eqn:E.
    + right. exists [], c, rest. split; [reflexivity|].
      split; [constructor|]. left. split; [exact E|].
      apply first_exact_hit. exact E.
    + destruct (is_broken manufacturer c) eqn:B.
      * right. exists [], c, rest. split; [reflexivity|].
        split; [constructor|]. right. split; [exact B|].
        apply first_exact_broken. exact B.
      * rewrite (first_exact_skip _ _ c rest E B).
        destruct IH as [[R F] | (before & c' & after & -> & F & R)].
        -- left. split; [exact R|]. constructor; auto.
        -- right. exists (c :: before), c', after.
           split; [reflexivity|]. split; [constructor; auto | exact R].
Qed.

Section WithSearch.

Variable search_components :
  Database.t -> string -> option string -> Z
  -> outcome (list Database.component).

(** X7.  With an empty manufacturer or an empty model number
    [match_by_manufacturer_model] returns [None] without searching: the
    result does not depend on the database, which may even be
    unreachable. *)
Theorem exact_lookup_empty_argument (self : ComponentMatcher.t)
  (manufacturer model_number : string) :
  manufacturer = "" \/ model_number = "" ->
  match_by_manufacturer_model search_components self manufacturer model_number
  = Returned None.
Proof.
  unfold match_by_manufacturer_model.
  intros [-> | ->]; [reflexivity|].
  destruct manufacturer; reflexivity.
Qed.

(** X8.  With both arguments non-empty and the rows found by the search,
    [match_by_manufacturer_model] returns the first row whose manufacturer
    and model number equal the arguments up to letter case; it returns
    [None] only when no row found does; and it raises only at a row, ahead
    of any exact match, whose manufacturer is missing or whose manufacturer
    matches while its model number is missing. *)
Theorem exact_lookup_first_match (self : ComponentMatcher.t)
  (manufacturer model_number : string)
  (found : list Database.component) :
  manufacturer <> "" -> model_number <> "" ->
  search_components (ComponentMatcher.db self)
    (manufacturer ++ " " ++ model_number) None 10%Z = Returned found ->
  let res :=
    match_by_manufacturer_model search_components self
      manufacturer model_number in
  let passed :=
    Forall (fun r => is_exact manufacturer model_number r = false /\
                     is_broken manufacturer r = false) in
  (res = Returned None /\ passed found) \/
  (exists before c after,
      found = (before ++ c :: after)%list /\ passed before /\
      ((is_exact manufacturer model_number c = true /\
        res = Returned (Some c)) \/
       (is_broken manufacturer c = true /\
        res = Raised "AttributeError"))).
Proof.
  intros Hm Hn S. cbv zeta. unfold match_by_manufacturer_model.
  destruct manufacturer as [|a m]; [congruence|].
  destruct model_number as [|b n]; [congruence|].
  cbn [Py.truthy negb orb]. rewrite S. cbn [bind].
  apply first_exact_cases.
Qed.

End WithSearch.

Lemma exact_lookup_empty_argument_witness :
  match_by_manufacturer_model SampleSearch.search Sample.matcher "Schneider" ""
  = Returned None.
Proof.
  apply (exact_lookup_empty_argument SampleSearch.search Sample.matcher).
  right. reflexivity.
Defined.

Lemma exact_lookup_first_match_witness :
  let res :=
    match_by_manufacturer_model SampleSearch.search Sample.matcher
      "SCHNEIDER" "c60n" in
  let passed :=
    Forall (fun r => is_exact "SCHNEIDER" "c60n" r = false /\
                     is_broken "SCHNEIDER" r = false) in
  (res = Returned None /\
   passed (Database.component_library Sample.library)) \/
  (exists before c after,
      Database.component_library Sample.library
      = (before ++ c :: after)%list /\ passed before /\
      ((is_exact "SCHNEIDER" "c60n" c = true /\ res = Returned (Some c)) \/
       (is_broken "SCHNEIDER" c = true /\ res = Raised "AttributeError"))).
Proof.
  apply (exact_lookup_first_match SampleSearch.search Sample.matcher
           "SCHNEIDER" "c60n");
    [discriminate | discriminate | reflexivity].
Defined.

End ExactProps.

(* ================================================================== *)
(** * More facts about the maximum, the sort and the keys *)
(* ================================================================== *)

Module RankFacts.

Import Process.

Section WithScorer.

Variable scorer : string -> string -> Z.

Lemma extractWithoutOrder_nonneg (query : string) (choices : list string)
  (x : string * Z) :
  In x (extractWithoutOrder scorer query choices) -> (0 <= snd x)%Z.
Proof.
  unfold extractWithoutOrder. rewrite in_flat_map.
  intros (choice & _ & Hx).
  destruct (Z.leb_spec 0 (scorer query choice)) as [L|L]; [|destruct Hx].
  destruct Hx as [<-|[]]. exact L.
Qed.

Lemma extractWithoutOrder_keeps (query : string) (choices : list string)
  (k : string) :
  In k choices -> (0 <= scorer query k)%Z ->
  In (k, scorer query k) (extractWithoutOrder scorer query choices).
Proof.
  intros Hk Hs. unfold extractWithoutOrder. rewrite in_flat_map.
  exists k. split; [exact Hk|].
  destruct (Z.leb_spec 0 (scorer query k)); [left; reflexivity | lia].
Qed.

Lemma extractWithoutOrder_app (query : string) (a b : list string) :
  extractWithoutOrder scorer query (a ++ b)%list =
  (extractWithoutOrder scorer query a
   ++ extractWithoutOrder scorer query b)%list.
Proof. unfold extractWithoutOrder. apply flat_map_app. Qed.

End WithScorer.

(** Everything ahead of the maximum that [max] picks is strictly smaller. *)
Lemma max_by_score_first (l : list (string * Z)) :
  forall best,
  exists l1 l2,
    best :: l = (l1 ++ max_by_score best l :: l2)%list /\
    forall x, In x l1 -> (snd x < snd (max_by_score best l))%Z.
Proof.
  induction l as [|y l IH]; intros best.
  - exists [], []. split; [reflexivity | intros x []].
  - cbn [max_by_score].
    destruct (Z.ltb_spec (snd best) (snd y)) as [L|L].
    + destruct (IH y) as (l1 & l2 & E & H).
      exists (best :: l1), l2. split; [simpl; rewrite E; reflexivity|].
      intros x [<-|Hx]; [|auto].
      pose proof (ProcessFacts.max_by_score_ge l y y (or_introl eq_refl)).
      lia.
    + destruct (IH best) as (l1 & l2 & E & H).
      destruct l1 as [|b l1]; simpl in E.
      * injection E as E1 E2. exists [], (y :: l2).
        split; [simpl; congruence | intros x []].
      * injection E as <- E2. exists (best :: y :: l1), l2.
        split; [simpl; do 2 f_equal; exact E2|].
        pose proof (H best (or_introl eq_refl)).
        intros x [<-|[<-|Hx]]; [assumption | lia | apply H; right; exact Hx].
Qed.

Lemma max_by_score_cons (l : list (string * Z)) :
  forall x y,
    max_by_score x (y :: l) =
    if (snd x <? snd (max_by_score y l))%Z then max_by_score y l else x.
Proof.
  induction l as [|z l IH]; intros x y.
  - reflexivity.
  - change (max_by_score x (y :: z :: l))
      with (if (snd x <? snd y)%Z then max_by_score y (z :: l)
            else max_by_score x (z :: l)).
    destruct (Z.ltb_spec (snd x) (snd y)) as [L|L].
    + pose proof (ProcessFacts.max_by_score_ge (z :: l) y y
                    (or_introl eq_refl)).
      destruct (Z.ltb_spec (snd x) (snd (max_by_score y (z :: l))));
        [reflexivity | lia].
    + rewrite (IH x z), (IH y z).
      destruct (Z.ltb_spec (snd x) (snd (max_by_score z l))) as [M|M].
      * destruct (Z.ltb_spec (snd y) (snd (max_by_score z l))); [|lia].
        destruct (Z.ltb_spec (snd x) (snd (max_by_score z l)));
          [reflexivity | lia].
      * destruct (Z.ltb_spec (snd y) (snd (max_by_score z l))).
        -- destruct (Z.ltb_spec (snd x) (snd (max_by_score z l)));
             [lia | reflexivity].
        -- destruct (Z.ltb_spec (snd x) (snd y)); [lia | reflexivity].
Qed.

(** The sorted list begins with the element [max] picks. *)
Lemma sorted_desc_head (l : list (string * Z)) :
  forall x, exists tl, sorted_desc (x :: l) = max_by_score x l :: tl.
Proof.
  induction l as [|y l IH]; intros x.
  - exists []. reflexivity.
  - destruct (IH y) as [tl E].
    change (sorted_desc (x :: y :: l))
      with (insert_desc x (sorted_desc (y :: l))).
    rewrite E, max_by_score_cons. cbn [insert_desc].
    destruct (snd x <? snd (max_by_score y l))%Z; eauto.
Qed.

(** In a sorted list every element of a front part stands before every
    element of the rest. *)
Lemma sorted_front_rest {A : Type} (R : A -> A -> Prop) (l1 l2 : list A) :
  StronglySorted R (l1 ++ l2)%list ->
  forall a b, In a l1 -> In b l2 -> R a b.
Proof.
  induction l1 as [|x l1 IH]; simpl; intros H a b Ha Hb; [destruct Ha|].
  inversion H as [|? ? Hs Hx]; subst.
  destruct Ha as [<-|Ha].
  - rewrite Forall_forall in Hx. apply Hx. apply in_or_app. right. exact Hb.
  - apply (IH Hs a b Ha Hb).
Qed.

(** Two splits of a list at the same element, which occurs once. *)
Lemma split_unique {A : Type} (a a' b b' : list A) (m : A) :
  NoDup (a ++ m :: b)%list ->
  (a ++ m :: b)%list = (a' ++ m :: b')%list -> a = a'.
Proof.
  revert a'. induction a as [|x a IH]; intros a' N E.
  - destruct a' as [|x' a']; [reflexivity|].
    simpl in E. injection E as <- E. exfalso.
    inversion N as [|? ? Hm _]; subst. apply Hm.
    apply in_or_app. right. left. reflexivity.
  - destruct a' as [|x' a']; simpl in E.
    + injection E as -> E. exfalso.
      inversion N as [|? ? Hm _]; subst. apply Hm.
      apply in_or_app. right. left. reflexivity.
    + injection E as <- E. f_equal. inversion N; subst. apply IH; auto.
Qed.

Import ComponentMatcher.

Lemma fill_app (start : Dict.t Database.component)
  (l1 l2 : list Database.component) :
  fill start (l1 ++ l2)%list = fill (fill start l1) l2.
Proof. unfold fill. apply fold_left_app. Qed.

(** Filling a dictionary keeps the keys it has, in their order, in
    front. *)
Lemma fill_keys_front (l : list Database.component) :
  forall start, exists extra,
    Dict.keys (fill start l) = (Dict.keys start ++ extra)%list.
Proof.
  unfold fill. induction l as [|c l IH]; intros start; cbn [fold_left].
  - exists []. rewrite app_nil_r. reflexivity.
  - destruct (IH (Dict.set start (candidate_str c) c)) as [extra E].
    rewrite E, DictFacts.keys_set.
    destruct (in_dec string_dec (candidate_str c) (Dict.keys start)).
    + eauto.
    + rewrite <- app_assoc. eauto.
Qed.

(** The keys of the dictionary, split at the first candidate that reads
    as [c0] does. *)
Lemma candidate_dict_keys_split (before rest : list Database.component)
  (c0 : Database.component) :
  (forall b, In b before -> candidate_str b <> candidate_str c0) ->
  exists extra,
    Dict.keys (candidate_dict (before ++ c0 :: rest)%list) =
    (Dict.keys (candidate_dict before) ++ candidate_str c0 :: extra)%list.
Proof.
  intros H. unfold candidate_dict. rewrite fill_app.
  change (fill (fill [] before) (c0 :: rest))
    with (fill (Dict.set (fill [] before) (candidate_str c0) c0) rest).
  destruct (fill_keys_front rest
              (Dict.set (fill [] before) (candidate_str c0) c0))
    as [extra E].
  rewrite E, DictFacts.keys_set.
  destruct (in_dec string_dec (candidate_str c0)
              (Dict.keys (fill [] before))) as [I|I].
  - exfalso. apply DictFacts.fill_keys_in in I. destruct I as [I|I].
    + destruct I.
    + apply in_map_iff in I as (b & Eb & Hb). apply (H b Hb Eb).
  - rewrite <- app_assoc. exists extra. reflexivity.
Qed.

End RankFacts.

(* ================================================================== *)
(** * Which rows the matcher can return, and in which order *)
(* ================================================================== *)

Module RankProps.

Import ComponentMatcher.

Lemma pool_rows (self : Database.t) (cls : option string)
  (rows : list Database.component) (r : Database.component) :
  Database.get_all_components self cls = Returned rows ->
  In r rows ->
  In r (Database.component_library self) /\
  Database.is_active r = true /\
  (Py.truthy cls = true -> Database.itclass r = cls).
Proof.
  unfold Database.get_all_components.
  destruct (Database.cursor self); [|discriminate].
  destruct (Py.truthy cls) eqn:T; intros E; injection E as <-;
    rewrite filter_In.
  - intros [Hin H]. apply andb_prop in H as [Hc Ha].
    repeat split; auto. intros _.
    destruct cls as [[|a s]|]; try discriminate.
    unfold Database.itclass_is in Hc. cbn [Py.format] in Hc.
    destruct (Database.itclass r) as [c|]; [|discriminate].
    apply String.eqb_eq in Hc. congruence.
  - intros [Hin Ha]. repeat split; auto. discriminate.
Qed.

(** X9.  The matcher only reaches active rows of the library: the row
    whose identifier [match_component] returns and every row
    [get_match_suggestions] lists is an active row of the component
    library, and of the class of the item when that class is a non-empty
    string. *)
Theorem only_active_rows (scorer : string -> string -> Z) (self : t)
  (d : detected) :
  let reachable (c : Database.component) :=
    In c (Database.component_library (db self)) /\
    Database.is_active c = true /\
    (Py.truthy (detected_itclass d) = true ->
     Database.itclass c = detected_itclass d) in
  (forall cid s ty,
      match_component scorer self d = Returned (Some cid, s, ty) ->
      exists c, Database.component_id c = cid /\ reachable c) /\
  (forall limit sugg,
      get_match_suggestions scorer self d limit = Returned sugg ->
      forall r, In r sugg -> reachable (component r)).
Proof.
  cbv zeta.
  destruct (Database.get_all_components (db self) (detected_itclass d))
    as [cands|e] eqn:G.
  - split.
    + intros cid s ty H.
      destruct (MatcherFacts.match_component_some scorer self d cands
                  cid s ty G H) as (_ & before & c & after & E & I & _).
      exists c. split; [exact I|].
      apply (pool_rows _ _ _ c G). rewrite E. apply in_elt.
    + intros limit sugg H r Hr.
      rewrite (MatcherFacts.suggestions_with scorer self d limit cands G)
        in H.
      apply MatcherFacts.collect_suggestions_inv in H.
      destruct (MatcherFacts.Forall2_right _ _ _ r H Hr) as (x & _ & L & _).
      apply DictFacts.candidate_dict_last in L as (before & after & E & _).
      apply (pool_rows _ _ _ (component r) G). rewrite E. apply in_elt.
  - split.
    + intros cid s ty H. unfold match_component in H. rewrite G in H.
      discriminate.
    + intros limit sugg H. unfold get_match_suggestions in H.
      rewrite G in H. discriminate.
Qed.

Lemma only_active_rows_witness :
  exists c,
    Database.component_id c = 12%Z /\
    In c (Database.component_library (db Sample.matcher)) /\
    Database.is_active c = true /\
    (Py.truthy (detected_itclass Sample.breaker) = true ->
     Database.itclass c = detected_itclass Sample.breaker).
Proof.
  apply (proj1 (only_active_rows Sample.scorer Sample.matcher Sample.breaker)
           12%Z 100%Z Auto).
  reflexivity.
Defined.

(** X10.  The pool an item is matched against, on a connected database:
    an item without the key [itclass] is matched against the active rows
    of the class OTHER; an item whose [itclass] is [None] or the empty
    string is matched against the active rows of every class. *)
Theorem pool_of_item (self : t) (d : detected) :
  Database.cursor (db self) = true ->
  (Dict.lookup d "itclass" = None ->
   Database.get_all_components (db self) (detected_itclass d) =
   Returned (filter (fun r => Database.itclass_is "OTHER" r
                             && Database.is_active r)
               (Database.component_library (db self)))) /\
  (Dict.lookup d "itclass" = Some None \/
   Dict.lookup d "itclass" = Some (Some "") ->
   Database.get_all_components (db self) (detected_itclass d) =
   Returned (filter Database.is_active
               (Database.component_library (db self)))).
Proof.
  intros C. unfold Database.get_all_components, detected_itclass, Dict.get.
  rewrite C. split.
  - intros ->. reflexivity.
  - intros [-> | ->]; reflexivity.
Qed.

Lemma pool_of_item_witness :
  Database.get_all_components (db Sample.matcher)
    (detected_itclass [("itemname", Some "Relay"); ("itclass", Some "")]) =
  Returned (filter Database.is_active
              (Database.component_library (db Sample.matcher))).
Proof.
  apply (proj2 (pool_of_item Sample.matcher
                  [("itemname", Some "Relay"); ("itclass", Some "")]
                  eq_refl)).
  right. reflexivity.
Defined.

(** X11.  Ties go to the search string met first: when [match_component]
    returns a row with the score [s], every candidate retrieved before the
    first candidate that reads like that row has a score strictly below
    [s]. *)
Theorem first_seen_wins (scorer : string -> string -> Z) (self : t)
  (d : detected) (cands : list Database.component) (cid s : Z)
  (ty : match_type) :
  Database.get_all_components (db self) (detected_itclass d)
  = Returned cands ->
  match_component scorer self d = Returned (Some cid, s, ty) ->
  exists c,
    In c cands /\ Database.component_id c = cid /\
    s = scorer (detected_str d) (candidate_str c) /\
    forall before c0 rest,
      cands = (before ++ c0 :: rest)%list ->
      candidate_str c0 = candidate_str c ->
      (forall b, In b before -> candidate_str b <> candidate_str c) ->
      forall b, In b before ->
                (scorer (detected_str d) (candidate_str b) < s)%Z.
Proof.
  intros G H. pose proof H as H0.
  rewrite (MatcherFacts.match_component_with scorer self d cands G) in H.
  unfold Process.extractOne in H.
  set (q := detected_str d) in *.
  destruct (Process.extractWithoutOrder scorer q
              (Dict.keys (candidate_dict cands))) as [|x l] eqn:E;
    [discriminate|].
  destruct (RankFacts.max_by_score_first l x) as (l1 & l2 & Esplit & Hl1).
  pose proof (ProcessFacts.max_by_score_in l x) as Hin. rewrite <- E in Hin.
  pose proof (RankFacts.extractWithoutOrder_nonneg _ _ _ _ Hin) as Hpos.
  pose proof (ProcessFacts.extractWithoutOrder_in _ _ _ _ Hin) as [_ Hsc].
  destruct (Process.max_by_score x l) as [k sc] eqn:M.
  cbn [fst snd] in *. unfold Dict.item in H.
  destruct (Dict.lookup (candidate_dict cands) k) as [c|] eqn:L;
    cbn [bind] in H; [|discriminate].
  injection H as <- <- <-.
  apply DictFacts.candidate_dict_last in L
    as (bef & aft & Ec & Ek & _).
  exists c. split; [rewrite Ec; apply in_elt|]. split; [reflexivity|].
  split; [congruence|].
  intros before c0 rest Ecands E0 Hbefore b Hb.
  destruct (Z.leb_spec 0 (scorer q (candidate_str b))) as [Hb0|Hb0]; [|lia].
  apply (Hl1 (candidate_str b, scorer q (candidate_str b))).
  assert (Hb' : forall b', In b' before ->
                            candidate_str b' <> candidate_str c0)
    by (intros b' Hb'; rewrite E0; auto).
  destruct (RankFacts.candidate_dict_keys_split before rest c0 Hb')
    as [extra Ekeys].
  rewrite <- Ecands in Ekeys. rewrite Ekeys in E.
  rewrite RankFacts.extractWithoutOrder_app in E.
  assert (Ehead : Process.extractWithoutOrder scorer q
                    (candidate_str c0 :: extra)
                  = (k, sc) :: Process.extractWithoutOrder scorer q extra).
  { unfold Process.extractWithoutOrder. cbn [flat_map].
    rewrite E0, Ek, <- Hsc.
    destruct (Z.leb_spec 0 sc); [reflexivity | lia]. }
  rewrite Ehead in E.
  assert (N : NoDup (x :: l)).
  { apply (NoDup_map_inv fst). rewrite <- E, <- Ehead.
    rewrite <- RankFacts.extractWithoutOrder_app, <- Ekeys.
    apply ProcessFacts.extractWithoutOrder_nodup.
    apply DictFacts.candidate_dict_keys_nodup. }
  rewrite Esplit in N. rewrite Esplit in E.
  rewrite (RankFacts.split_unique _ _ _ _ _ N (eq_sym E)).
  apply RankFacts.extractWithoutOrder_keeps; [|exact Hb0].
  apply DictFacts.candidate_dict_keys_in. apply in_map. exact Hb.
Qed.

Lemma first_seen_wins_witness :
  exists c,
    In c (Database.component_library Sample.library) /\
    Database.component_id c = 12%Z /\
    100%Z = Sample.scorer
              (detected_str
                 [("itemname", Some "MCB 63A"); ("itclass", Some "");
                  ("manufacturer", Some "Schneider");
                  ("model_number", Some "C60N")])
              (candidate_str c) /\
    forall before c0 rest,
      Database.component_library Sample.library
      = (before ++ c0 :: rest)%list ->
      candidate_str c0 = candidate_str c ->
      (forall b, In b before -> candidate_str b <> candidate_str c) ->
      forall b, In b before ->
                (Sample.scorer
                   (detected_str
                      [("itemname", Some "MCB 63A"); ("itclass", Some "");
                       ("manufacturer", Some "Schneider");
                       ("model_number", Some "C60N")])
                   (candidate_str b)
                 < 100)%Z.
Proof.
  apply (first_seen_wins Sample.scorer Sample.matcher
           [("itemname", Some "MCB 63A"); ("itclass", Some "");
            ("manufacturer", Some "Schneider");
            ("model_number", Some "C60N")]
           _ 12%Z 100%Z Auto); reflexivity.
Defined.

End RankProps.

(* ================================================================== *)
(** * Suggestions and the best match together *)
(* ================================================================== *)

Module SuggestProps.

Import ComponentMatcher.

(** X12.  The first suggestion is the best match: when [match_component]
    returns an identifier and a score, [get_match_suggestions] with a
    limit of at least 1 returns a list that begins with a suggestion of
    that identifier and that score; and when [match_component] finds
    nothing to return although candidates were retrieved, there is no
    suggestion either. *)
Theorem first_suggestion_is_best (scorer : string -> string -> Z) (self : t)
  (d : detected) (cands : list Database.component) (limit : Z) :
  Database.get_all_components (db self) (detected_itclass d)
  = Returned cands ->
  (1 <= limit)%Z ->
  (forall cid s ty,
      match_component scorer self d = Returned (Some cid, s, ty) ->
      exists r rest,
        get_match_suggestions scorer self d limit = Returned (r :: rest) /\
        Database.component_id (component r) = cid /\ match_score r = s) /\
  (forall s ty,
      match_component scorer self d = Returned (None, s, ty) ->
      get_match_suggestions scorer self d limit = Returned []).
Proof.
  intros G Hlimit.
  rewrite (MatcherFacts.match_component_with scorer self d cands G).
  rewrite (MatcherFacts.suggestions_with scorer self d limit cands G).
  unfold Process.extractOne, Process.extract, Process.nlargest.
  destruct (Z.to_nat limit) as [|n] eqn:En; [lia|].
  destruct (Process.extractWithoutOrder scorer (detected_str d)
              (Dict.keys (candidate_dict cands))) as [|x l] eqn:E.
  - split; [discriminate | reflexivity].
  - destruct (RankFacts.sorted_desc_head l x) as [tl Etl]. rewrite Etl.
    cbn [firstn collect_suggestions].
    destruct (Process.max_by_score x l) as [k sc].
    unfold Dict.item.
    destruct (Dict.lookup (candidate_dict cands) k) as [c|] eqn:L;
      cbn [bind]; [|split; discriminate].
    split; [|discriminate].
    intros cid s ty H. injection H as <- <- <-.
    destruct (MatcherFacts.collect_suggestions_total (candidate_dict cands)
                (firstn n tl)) as [rest Erest].
    { intros y Hy. apply ProcessFacts.firstn_subset in Hy.
      assert (Hin : In y (Process.sorted_desc (x :: l)))
        by (rewrite Etl; right; exact Hy).
      apply (Permutation_in _ (ProcessFacts.sorted_desc_perm (x :: l)))
        in Hin.
      rewrite <- E in Hin.
      apply ProcessFacts.extractWithoutOrder_in in Hin as [Hin _].
      exact Hin. }
    rewrite Erest. cbn [bind].
    exists {| component := c; match_score := sc |}, rest.
    repeat split; reflexivity.
Qed.

Lemma first_suggestion_is_best_witness :
  exists r rest,
    get_match_suggestions Sample.scorer Sample.matcher Sample.breaker 3
    = Returned (r :: rest) /\
    Database.component_id (component r) = 12%Z /\ match_score r = 100%Z.
Proof.
  apply (proj1 (first_suggestion_is_best Sample.scorer Sample.matcher
                  Sample.breaker _ 3 eq_refl ltac:(lia))
           12%Z 100%Z Auto).
  reflexivity.
Defined.

(** X13.  The suggestions are the best candidates: a candidate whose
    search string is not among the suggestions, and whose score is not
    negative, scores no more than any suggestion listed. *)
Theorem suggestions_are_the_best (scorer : string -> string -> Z) (self : t)
  (d : detected) (cands : list Database.component) (limit : Z)
  (sugg : list suggestion) :
  Database.get_all_components (db self) (detected_itclass d)
  = Returned cands ->
  get_match_suggestions scorer self d limit = Returned sugg ->
  forall c,
    In c cands ->
    (0 <= scorer (detected_str d) (candidate_str c))%Z ->
    (forall r, In r sugg ->
               candidate_str (component r) <> candidate_str c) ->
    forall r, In r sugg ->
              (scorer (detected_str d) (candidate_str c) <= match_score r)%Z.
Proof.
  intros G H c Hc Hpos Hout r Hr.
  rewrite (MatcherFacts.suggestions_with scorer self d limit cands G) in H.
  apply MatcherFacts.collect_suggestions_inv in H.
  pose proof (MatcherFacts.Forall2_strings cands _ _ H) as Hstr.
  destruct (MatcherFacts.Forall2_right _ _ _ r H Hr) as (x & Hx & _ & Hs).
  rewrite Hs. unfold Process.extract, Process.nlargest in *.
  set (q := detected_str d) in *.
  set (L := Process.extractWithoutOrder scorer q
              (Dict.keys (candidate_dict cands))) in *.
  set (n := Z.to_nat limit) in *.
  set (y := (candidate_str c, scorer q (candidate_str c))).
  assert (Hy : In y (Process.sorted_desc L)).
  { apply (Permutation_in _ (Permutation_sym
                               (ProcessFacts.sorted_desc_perm L))).
    apply RankFacts.extractWithoutOrder_keeps; [|exact Hpos].
    apply DictFacts.candidate_dict_keys_in. apply in_map. exact Hc. }
  rewrite <- (firstn_skipn n (Process.sorted_desc L)) in Hy.
  apply in_app_or in Hy as [Hy|Hy].
  - exfalso.
    assert (Hk : In (candidate_str c)
                   (map (fun r => candidate_str (component r)) sugg)).
    { rewrite Hstr. apply (in_map fst _ y). exact Hy. }
    apply in_map_iff in Hk as (r' & Er' & Hr'). apply (Hout r' Hr' Er').
  - pose proof (ProcessFacts.sorted_desc_sorted L) as S.
    rewrite <- (firstn_skipn n (Process.sorted_desc L)) in S.
    pose proof (RankFacts.sorted_front_rest _ _ _ S x y Hx Hy) as R.
    unfold Process.before in R. subst y. cbn [snd] in R. lia.
Qed.

Lemma suggestions_are_the_best_witness :
  (Sample.scorer
     (detected_str
        [("itemname", Some "MCB 63A"); ("itclass", Some "");
         ("manufacturer", Some "Schneider"); ("model_number", Some "C60N")])
     (candidate_str (Sample.row 7 "Contactor 40A" "CONTACTOR" "ABB" "AF40"))
   <= match_score
        {| component := Sample.row 12 "MCB 63A" "MCB" "Schneider" "C60N";
           match_score := 100 |})%Z.
Proof.
  apply (suggestions_are_the_best Sample.scorer Sample.matcher
           [("itemname", Some "MCB 63A"); ("itclass", Some "");
            ("manufacturer", Some "Schneider");
            ("model_number", Some "C60N")]
           (Database.component_library Sample.library) 1
           [ {| component :=
                  Sample.row 12 "MCB 63A" "MCB" "Schneider" "C60N";
                match_score := 100 |} ]).
  - reflexivity.
  - reflexivity.
  - simpl. auto.
  - vm_compute. discriminate.
  - intros r [<-|[]]. vm_compute. discriminate.
  - simpl. auto.
Defined.

End SuggestProps.

(* ================================================================== *)
(** * Properties of the batch *)
(* ================================================================== *)

Module BatchProps.

Import ComponentMatcher.

Section WithScorer.

Variable scorer : string -> string -> Z.


Lemma unreachable_pool (self : t) (d : detected) :
  Database.cursor (db self) = false ->
  Database.get_all_components (db self) (detected_itclass d)
  = Raised "AttributeError".
Proof.
  intros C. unfold Database.get_all_components. rewrite C. reflexivity.
Qed.




(** X15.  Without a connection [batch_match] returns the empty list for
    an empty batch and raises [AttributeError] for any other. *)
Theorem batch_match_unreachable (self : t) (items : list detected) :
  Database.cursor (db self) = false ->
  MatcherBatch.batch_match scorer self items =
  match items with
  | [] => Returned []
  | _ :: _ => Raised "AttributeError"
  end.
Proof.
  intros C. destruct items as [|d items]; [reflexivity|].
  cbn [MatcherBatch.batch_match]. unfold match_component.
  rewrite (unreachable_pool self d C). reflexivity.
Qed.

End WithScorer.


Lemma batch_match_unreachable_witness :
  MatcherBatch.batch_match Sample.scorer
    (init {| Database.cursor := false; Database.component_library := [] |})
    [Sample.relay]
  = Raised "AttributeError".
Proof.
  apply (batch_match_unreachable Sample.scorer
           (init {| Database.cursor := false;
                    Database.component_library := [] |})
           [Sample.relay]).
  reflexivity.
Defined.

End BatchProps.

(* ================================================================== *)
(** * Properties of the decision *)
(* ================================================================== *)

Module DecisionProps.

Import ComponentMatcher.

(** X16.  Whatever the two thresholds, a higher score never gets a
    decision of lower confidence; and when the auto threshold is not above
    the review threshold, no score gets the decision [Review]. *)
Theorem classify_monotone (self : t) :
  (forall s s', (s <= s')%Z ->
                (Decision.rank (classify self s)
                 <= Decision.rank (classify self s'))%Z) /\
  ((auto_threshold self <= review_threshold self)%Z ->
   forall s, classify self s <> Review).
Proof.
  unfold classify. split.
  - intros s s' H.
    destruct (Z.leb_spec (auto_threshold self) s);
      destruct (Z.leb_spec (auto_threshold self) s');
      destruct (Z.leb_spec (review_threshold self) s);
      destruct (Z.leb_spec (review_threshold self) s');
      cbn [Decision.rank]; lia.
  - intros H s.
    destruct (Z.leb_spec (auto_threshold self) s); [discriminate|].
    destruct (Z.leb_spec (review_threshold self) s); [lia | discriminate].
Qed.

Lemma classify_monotone_witness :
  classify {| db := Sample.library; auto_threshold := 70;
              review_threshold := 85 |} 80 <> Review.
Proof.
  apply (proj2 (classify_monotone
                  {| db := Sample.library; auto_threshold := 70;
                     review_threshold := 85 |})).
  simpl. lia.
Defined.

End DecisionProps.
